(** * nbsvg: the SVGView widget (src/nbsvg/js/SVGView.js)

    A shallow embedding of the view's two methods, [render] and
    [svg_changed], over an explicit store for the three kinds of shared
    JavaScript objects the methods touch: DOM elements (reached through
    jQuery handles), Backbone models, and view instances.  Objects are
    referred to by identifier, so that the aliasing between [this.$svg]
    and the child appended to [this.$el] is the aliasing of the source.
    jQuery and Backbone are libraries the source calls; the few
    primitives it uses are modelled after their documented behaviour.
    Markup is kept as the raw string handed to [html]: the source does
    not parse or validate it. *)

From stdpp Require Import base option list gmap strings fin_maps.

Local Open Scope string_scope.

(** ** Data model *)

Definition node_id := nat.
Definition model_id := nat.
Definition view_id := nat.

(** A DOM element: its tag, its attribute map (what jQuery's [attr]
    writes), the elements appended to it, and the markup last injected
    into it with [html]. *)
Record Node := mkNode {
  tagName : string;
  attrs : gmap string string;
  childNodes : list node_id;
  innerHTML : string
}.

(** The functions of the program that are handed to [on] as callbacks.
    The source registers only [this.svg_changed]. *)
Inductive Callback := cb_svg_changed.

(** One entry of a Backbone model's event registry:
    [on(name, callback, context)]. *)
Record Listener := mkListener {
  l_event : string;
  l_callback : Callback;
  l_context : view_id
}.

(** A Backbone model: its attribute table and its event registry. *)
Record Model := mkModel {
  attributes : gmap string string;
  events : list Listener
}.

(** A view instance.  [el] is [this.$el], [model] is [this.model] and
    [svg] is [this.$svg], which is [undefined] ([None]) until [render]
    assigns it. *)
Record View := mkView {
  el : node_id;
  model : model_id;
  svg : option node_id
}.

(** Effects on the document and on the event registries, in the order in
    which the library primitives perform them. *)
Inductive Effect :=
| CreateElement (n : node_id) (tag : string)
| Append (parent child : node_id)
| SetHtml (n : node_id) (markup : string)
| SetAttr (n : node_id) (key value : string)
| On (m : model_id) (event : string) (cb : Callback) (ctx : view_id).

Record World := mkWorld {
  document : gmap node_id Node;
  models : gmap model_id Model;
  views : gmap view_id View;
  trace : list Effect
}.

#[global] Instance Callback_eq_dec : EqDecision Callback.
Proof. solve_decision. Defined.
#[global] Instance Listener_eq_dec : EqDecision Listener.
Proof. solve_decision. Defined.
#[global] Instance Effect_eq_dec : EqDecision Effect.
Proof. solve_decision. Defined.

(** ** A state-and-exception monad for method bodies *)

Inductive Exn := TypeError.

Inductive Result (A : Type) :=
| Ok (a : A) (w : World)
| Throw (e : Exn).
Arguments Ok {A} a w.
Arguments Throw {A} e.

Definition M (A : Type) := World → Result A.

Definition ret {A} (a : A) : M A := λ w, Ok a w.
Definition throw {A} (e : Exn) : M A := λ _, Throw e.
Definition bind {A B} (m : M A) (k : A → M B) : M B :=
  λ w, match m w with
       | Ok a w' => k a w'
       | Throw e => Throw e
       end.

#[global] Instance M_ret : MRet M := @ret.
#[global] Instance M_bind : MBind M := λ A B k m, bind m k.

Definition modify (f : World → World) : M unit := λ w, Ok tt (f w).

Definition log (e : Effect) (w : World) : World :=
  mkWorld (document w) (models w) (views w) (trace w ++ [e]).

Definition set_document (d : gmap node_id Node) (w : World) : World :=
  mkWorld d (models w) (views w) (trace w).

Definition set_models (ms : gmap model_id Model) (w : World) : World :=
  mkWorld (document w) ms (views w) (trace w).

Definition set_views (vs : gmap view_id View) (w : World) : World :=
  mkWorld (document w) (models w) vs (trace w).

(** ** jQuery primitives used by the view

    A handle is the identifier of one element.  As in jQuery, a method
    applied to a handle that selects no element does nothing. *)
Module JQuery.

(** [$('<tag>')]: a new, detached element. *)
Definition create (tag : string) : M node_id := λ w,
  let n := fresh (dom (document w)) in
  Ok n (log (CreateElement n tag)
         (set_document (<[n := mkNode tag ∅ [] ""]> (document w)) w)).

Definition on_node (n : node_id) (f : Node → Node) (e : Effect) : M unit :=
  λ w, match document w !! n with
       | Some nd => Ok tt (log e (set_document (<[n := f nd]> (document w)) w))
       | None => Ok tt w
       end.

Definition add_child (child : node_id) (nd : Node) : Node :=
  mkNode (tagName nd) (attrs nd) (childNodes nd ++ [child]) (innerHTML nd).

(** [parent.append(child)]: [child] becomes the last child. *)
Definition append (parent child : node_id) : M unit :=
  on_node parent (add_child child) (Append parent child).

Definition set_attr (key value : string) (nd : Node) : Node :=
  mkNode (tagName nd) (<[key := value]> (attrs nd)) (childNodes nd) (innerHTML nd).

(** [h.attr({key: value})]. *)
Definition attr (n : node_id) (key value : string) : M unit :=
  on_node n (set_attr key value) (SetAttr n key value).

Definition inject (s : string) (nd : Node) : Node :=
  mkNode (tagName nd) (attrs nd) [] s.

(** [h.html(value)].  With a string, the whole content of the element
    is replaced by the markup.  With [undefined] the call is jQuery's
    getter and changes nothing. *)
Definition html (n : node_id) (value : option string) : M unit :=
  match value with
  | Some s => on_node n (inject s) (SetHtml n s)
  | None => ret tt
  end.

End JQuery.

(** ** Backbone model primitives used by the view *)
Module Backbone.

(** [this.model] dereferenced: a missing model is [undefined], and a
    method call on it raises. *)
Definition deref (m : model_id) : M Model := λ w,
  match models w !! m with
  | Some md => Ok md w
  | None => Throw TypeError
  end.

(** [model.get(name)]: the attribute, or [undefined]. *)
Definition get (m : model_id) (name : string) : M (option string) :=
  md ← deref m ; ret (attributes md !! name).

(** [model.on(event, callback, context)]: one more registry entry. *)
Definition on (m : model_id) (event : string) (cb : Callback) (ctx : view_id)
  : M unit :=
  md ← deref m ;
  modify (λ w,
    log (On m event cb ctx)
      (set_models
         (<[m := mkModel (attributes md)
                         (events md ++ [mkListener event cb ctx])]>
            (models w)) w)).

End Backbone.

(** ** The view: [SVGView] *)

Definition this (v : view_id) : M View := λ w,
  match views w !! v with
  | Some vw => Ok vw w
  | None => Throw TypeError
  end.

(** [this.$svg = h]. *)
Definition assign_svg (v : view_id) (h : node_id) : M unit :=
  vw ← this v ;
  modify (λ w,
    set_views (<[v := mkView (el vw) (model vw) (Some h)]> (views w)) w).

(** [svg_changed]: [this.$svg.html(this.model.get('svg'))].  The member
    access on [this.$svg] comes first and raises when it is undefined. *)
Definition svg_changed (v : view_id) : M unit :=
  vw ← this v ;
  match svg vw with
  | None => throw TypeError
  | Some h =>
      value ← Backbone.get (model vw) "svg" ;
      JQuery.html h value
  end.

(** [render], statement by statement:
<<
    this.$svg = $('<svg>');
    this.$el.append(this.$svg);
    this.svg_changed();
    this.$el.attr({overflow: 'hidden'});
    this.model.on('change:svg', this.svg_changed, this);
>> *)
Definition render (v : view_id) : M unit :=
  h ← JQuery.create "svg" ;
  assign_svg v h ;;
  vw ← this v ;
  JQuery.append (el vw) h ;;
  svg_changed v ;;
  JQuery.attr (el vw) "overflow" "hidden" ;;
  Backbone.on (model vw) "change:svg" cb_svg_changed v.

(** [ElementView.render] has an empty body. *)
Definition ElementView_render (v : view_id) : M unit := ret tt.

(** ** Change notification

    [model.trigger(event)] calls, in registration order, every callback
    registered under [event], with its context as [this]. *)

Definition invoke (l : Listener) : M unit :=
  match l_callback l with
  | cb_svg_changed => svg_changed (l_context l)
  end.

Fixpoint run_listeners (ls : list Listener) : M unit :=
  match ls with
  | [] => ret tt
  | l :: ls' => invoke l ;; run_listeners ls'
  end.

Definition listening (event : string) (ls : list Listener) : list Listener :=
  filter (λ l, l_event l = event) ls.

Definition trigger (m : model_id) (event : string) : M unit :=
  md ← Backbone.deref m ;
  run_listeners (listening event (events md)).

(** An update from the kernel side has two steps: the new value is
    stored in the model's attribute table, *)
Definition store_attribute (m : model_id) (name value : string) : M unit :=
  md ← Backbone.deref m ;
  modify (λ w,
    set_models (<[m := mkModel (<[name := value]> (attributes md)) (events md)]>
                  (models w)) w).

(** and the change notification of that attribute is delivered. *)
Definition notify_change (m : model_id) (name : string) : M unit :=
  trigger m ("change:" ++ name).

Definition update (m : model_id) (name value : string) : M unit :=
  store_attribute m name value ;;
  notify_change m name.

(** Removing an attribute ([unset]) likewise: the attribute is deleted
    from the table and the change notification is delivered. *)
Definition remove_attribute (m : model_id) (name : string) : M unit :=
  md ← Backbone.deref m ;
  modify (λ w,
    set_models (<[m := mkModel (delete name (attributes md)) (events md)]>
                  (models w)) w).

Definition unset (m : model_id) (name : string) : M unit :=
  remove_attribute m name ;;
  notify_change m name.

Fixpoint updates (m : model_id) (name : string) (values : list string) : M unit :=
  match values with
  | [] => ret tt
  | value :: rest => update m name value ;; updates m name rest
  end.

Fixpoint notifications (n : nat) (m : model_id) (name : string) : M unit :=
  match n with
  | 0 => ret tt
  | S n' => notify_change m name ;; notifications n' m name
  end.

(** ** Observations *)

(** The content of the view's container, when the view has one. *)
Definition content (w : World) (v : view_id) : option string :=
  vw ← views w !! v ;
  h ← svg vw ;
  innerHTML <$> document w !! h.

(** Number of content replacements of element [h] in a trace. *)
Definition replaces (h : node_id) (e : Effect) : bool :=
  match e with
  | SetHtml n _ => bool_decide (n = h)
  | _ => false
  end.

Definition replacements (h : node_id) (tr : list Effect) : nat :=
  length (filter (λ e, replaces h e = true) tr).

(** The markups written into element [h] along a trace, in order. *)
Definition written (h : node_id) (tr : list Effect) : list string :=
  omap (λ e, match e with
             | SetHtml n s => if decide (n = h) then Some s else None
             | _ => None
             end) tr.

(** Number of registrations with view [v] as context in a trace. *)
Definition registers (v : view_id) (e : Effect) : bool :=
  match e with
  | On _ _ _ ctx => bool_decide (ctx = v)
  | _ => false
  end.

Definition registrations (v : view_id) (tr : list Effect) : nat :=
  length (filter (λ e, registers v e = true) tr).

(** An effect that replaces the content of an element of [D]. *)
Definition html_within (D : gset node_id) (e : Effect) : Prop :=
  ∃ n s, e = SetHtml n s ∧ n ∈ D.

(** Registry entries of model [m] whose context is view [v]. *)
Definition subscriptions (w : World) (m : model_id) (v : view_id) : list Listener :=
  match models w !! m with
  | Some md => filter (λ l, l_context l = v) (events md)
  | None => []
  end.

(** ** Well-formed worlds

    What the widget framework maintains: a view is built on a host
    element and a model that exist; and what holds of every world the
    program itself can produce: registry entries name mounted views of
    the model they are registered on, at most one per view, and no two
    views share a container. *)
Record wf (w : World) : Prop := mkWf {
  wf_host : ∀ v vw, views w !! v = Some vw → el vw ∈ dom (document w);
  wf_model : ∀ v vw, views w !! v = Some vw → is_Some (models w !! model vw);
  wf_container : ∀ v vw h,
    views w !! v = Some vw → svg vw = Some h → h ∈ dom (document w);
  wf_own : ∀ v1 v2 vw1 vw2 h,
    views w !! v1 = Some vw1 → views w !! v2 = Some vw2 →
    svg vw1 = Some h → svg vw2 = Some h → v1 = v2;
  wf_listener : ∀ m md l,
    models w !! m = Some md → l ∈ events md →
    ∃ vw, views w !! l_context l = Some vw ∧ model vw = m ∧ is_Some (svg vw);
  wf_once : ∀ m md,
    models w !! m = Some md → NoDup (l_context <$> events md)
}.

(** A view that [render] has not been called on. *)
Definition unmounted (w : World) (v : view_id) : Prop :=
  ∃ vw, views w !! v = Some vw ∧ svg vw = None.

(** ** The worlds the program can be in

    The surroundings create elements, models and views (a view on an
    element and a model that exist, not yet rendered), call [render] on
    a view once, and deliver updates and removals of attributes. *)
Definition empty_world : World := mkWorld ∅ ∅ ∅ [].

Inductive step : World → World → Prop :=
| step_element w tag n w' :
    JQuery.create tag w = Ok n w' → step w w'
| step_model w table :
    step w (set_models (<[fresh (dom (models w)) := mkModel table []]>
                          (models w)) w)
| step_view w host m :
    host ∈ dom (document w) → m ∈ dom (models w) →
    step w (set_views (<[fresh (dom (views w)) := mkView host m None]>
                         (views w)) w)
| step_render w v w' :
    unmounted w v → render v w = Ok tt w' → step w w'
| step_update w m name value w' :
    update m name value w = Ok tt w' → step w w'
| step_unset w m name w' :
    unset m name w = Ok tt w' → step w w'.

Definition reachable (w : World) : Prop := rtc step empty_world w.

(** ** The effect of the primitives, in closed form *)

Definition html_document (h : node_id) (value : option string)
    (d : gmap node_id Node) : gmap node_id Node :=
  match value with
  | Some s => alter (JQuery.inject s) h d
  | None => d
  end.

Definition html_trace (h : node_id) (value : option string)
    (d : gmap node_id Node) : list Effect :=
  match value, d !! h with
  | Some s, Some _ => [SetHtml h s]
  | _, _ => []
  end.

(** The containers of the views that a list of registry entries names. *)
Definition targets (w : World) (ls : list Listener) : list node_id :=
  omap (λ l, views w !! l_context l ≫= svg) ls.

(** The world [render] leaves behind, for a view [vw] whose model is
    [md]: every statement of the body applied in turn. *)
Definition rendered (w : World) (v : view_id) (vw : View) (md : Model) : World :=
  let h := fresh (dom (document w)) in
  let value := attributes md !! "svg" in
  let d1 := <[h := mkNode "svg" ∅ [] ""]> (document w) in
  let d2 := alter (JQuery.add_child h) (el vw) d1 in
  let d3 := html_document h value d2 in
  let d4 := alter (JQuery.set_attr "overflow" "hidden") (el vw) d3 in
  mkWorld d4
    (<[model vw := mkModel (attributes md)
         (events md ++ [mkListener "change:svg" cb_svg_changed v])]> (models w))
    (<[v := mkView (el vw) (model vw) (Some h)]> (views w))
    (((((trace w ++ [CreateElement h "svg"])
        ++ match d1 !! el vw with Some _ => [Append (el vw) h] | None => [] end)
        ++ html_trace h value d2)
        ++ match d3 !! el vw with
           | Some _ => [SetAttr (el vw) "overflow" "hidden"]
           | None => []
           end)
        ++ [On (model vw) "change:svg" cb_svg_changed v]).

Definition html_documents (value : option string) (hs : list node_id)
    (d : gmap node_id Node) : gmap node_id Node :=
  foldl (λ d' h, html_document h value d') d hs.

Definition html_traces (value : option string) (hs : list node_id)
    (d : gmap node_id Node) : list Effect :=
  hs ≫= (λ h, html_trace h value d).

(** The world a run of the callbacks [ls] of model [md] leaves behind. *)
Definition notified (w : World) (md : Model) (ls : list Listener) : World :=
  let value := attributes md !! "svg" in
  mkWorld (html_documents value (targets w ls) (document w))
          (models w) (views w)
          (trace w ++ html_traces value (targets w ls) (document w)).

(** The world after a new value is stored in model [m]. *)
Definition stored (w : World) (m : model_id) (md : Model) (name value : string)
    : World :=
  set_models (<[m := mkModel (<[name := value]> (attributes md)) (events md)]>
                (models w)) w.

(** The view's registry entry. *)
Definition subscription (v : view_id) : Listener :=
  mkListener "change:svg" cb_svg_changed v.

(** View [v] is subscribed to its model's [svg] changes. *)
Definition subscribed (w : World) (v : view_id) : Prop :=
  ∃ vw md, views w !! v = Some vw ∧ models w !! model vw = Some md ∧
           subscription v ∈ events md.

(** The five effects of mounting in the order the specification's
    description of [mount()] lists them, overflow before the sync. *)
Definition spec_mount_effects (v : view_id) (vw : View) (h : node_id)
    (value : string) : list Effect :=
  [CreateElement h "svg";
   Append (el vw) h;
   SetAttr (el vw) "overflow" "hidden";
   SetHtml h value;
   On (model vw) "change:svg" cb_svg_changed v].

(** The same effects in the order of the statements of [render]. *)
Definition mount_effects (v : view_id) (vw : View) (h : node_id)
    (value : string) : list Effect :=
  [CreateElement h "svg";
   Append (el vw) h;
   SetHtml h value;
   SetAttr (el vw) "overflow" "hidden";
   On (model vw) "change:svg" cb_svg_changed v].

(** The effect of mounting on the document as the specification words
    it: one new element [h] is inserted under the host, and that is all
    that changes. *)
Definition spec_mount_document (w w' : World) (host h : node_id) : Prop :=
  (h ∉ dom (document w)) ∧
  (∀ nd, document w !! host = Some nd →
         document w' !! host = Some (JQuery.add_child h nd)) ∧
  (∀ n, n ≠ h → n ≠ host → document w' !! n = document w !! n).

(** An element's inline style is the value of its [style] attribute,
    which is where a style set through jQuery's [css] ends up. *)
Definition inline_style (nd : Node) : option string := attrs nd !! "style".

Fixpoint mentions (word text : string) : bool :=
  String.prefix word text ||
  match text with
  | EmptyString => false
  | String _ rest => mentions word rest
  end.

(** The host's overflow style as the specification words it: the host
    has an inline style that declares [overflow] as [hidden]. *)
Definition spec_overflow_style_hidden (nd : Node) : bool :=
  match inline_style nd with
  | Some css => mentions "overflow" css && mentions "hidden" css
  | None => false
  end.

(** A small concrete world: one host [div], one model, one view. *)
Definition w0 : World :=
  mkWorld {[ 0 := mkNode "div" ∅ [] "" ]}
          {[ 0 := mkModel {[ "svg" := "<circle r='5'/>" ]} [] ]}
          {[ 0 := mkView 0 0 None ]}
          [].

(** Two hosts, two models, one view on each. *)
Definition w2 : World :=
  mkWorld {[ 0 := mkNode "div" ∅ [] ""; 1 := mkNode "div" ∅ [] "" ]}
          {[ 0 := mkModel {[ "svg" := "<rect/>" ]} [];
             1 := mkModel {[ "svg" := "<line/>" ]} [] ]}
          {[ 0 := mkView 0 0 None; 1 := mkView 1 1 None ]}
          [].

(** The world a computation leaves behind ([w] itself if it raises). *)
Definition run {A} (m : M A) (w : World) : World :=
  match m w with
  | Ok _ w' => w'
  | Throw _ => w
  end.

(** [w2] with both views mounted. *)
Definition w2_mounted : World := run (render 0 ;; render 1) w2.

(** [w0] with a model that has no [svg] attribute. *)
Definition w_blank : World :=
  mkWorld {[ 0 := mkNode "div" ∅ [] "" ]}
          {[ 0 := mkModel ∅ [] ]}
          {[ 0 := mkView 0 0 None ]}
          [].

(** [w0] with a view whose model does not exist. *)
Definition w_orphan : World :=
  mkWorld {[ 0 := mkNode "div" ∅ [] "" ]} ∅ {[ 0 := mkView 0 0 None ]} [].

(** Two hosts and two views on one model, both views mounted. *)
Definition w_shared : World :=
  run (render 0 ;; render 1)
    (mkWorld {[ 0 := mkNode "div" ∅ [] ""; 1 := mkNode "div" ∅ [] "" ]}
             {[ 0 := mkModel {[ "svg" := "<rect/>" ]} [] ]}
             {[ 0 := mkView 0 0 None; 1 := mkView 1 0 None ]}
             []).

(** [w2] with the first view mounted. *)
Definition w2_half : World := run (render 0) w2.

(** What holds of every reachable world besides [wf]: the registries
    hold nothing but subscriptions made by [render]; a mounted view is
    subscribed; and its container is an [svg] element whose injected
    markup is the model's current [svg] when the model has one, and
    whose child elements are containers of views hosted on it. *)
Record live (w : World) : Prop := mkLive {
  live_wf : wf w;
  live_entry : ∀ m md l,
    models w !! m = Some md → l ∈ events md → l = subscription (l_context l);
  live_subscribed : ∀ v vw h,
    views w !! v = Some vw → svg vw = Some h → subscribed w v;
  live_container : ∀ v vw h,
    views w !! v = Some vw → svg vw = Some h →
    ∃ nd md, document w !! h = Some nd ∧ models w !! model vw = Some md ∧
             tagName nd = "svg" ∧
             (∀ s, attributes md !! "svg" = Some s → innerHTML nd = s) ∧
             (∀ c, c ∈ childNodes nd →
                   ∃ v' vw', views w !! v' = Some vw' ∧ el vw' = h)
}.

(** A reachable world: one host, one model, one view, mounted. *)
Definition w_live : World :=
  run (render 0)
    (set_views {[ 0 := mkView 0 0 None ]}
       (set_models {[ 0 := mkModel {[ "svg" := "<circle r='5'/>" ]} [] ]}
          (run (JQuery.create "div") empty_world))).

(** * Proofs *)

Section monad.
Context {A B : Type}.
Implicit Types (m : M A) (k : A → M B).

Lemma bind_Ok m k w a w' : m w = Ok a w' → (m ≫= k) w = k a w'.
Proof. intros E. unfold mbind, M_bind, bind. by rewrite E. Qed.

Lemma bind_Throw m k w e : m w = Throw e → (m ≫= k) w = Throw e.
Proof. intros E. unfold mbind, M_bind, bind. by rewrite E. Qed.

Lemma bind_Ok_inv m k w b w'' :
  (m ≫= k) w = Ok b w'' → ∃ a w', m w = Ok a w' ∧ k a w' = Ok b w''.
Proof.
  unfold mbind, M_bind, bind. destruct (m w) as [a w'|e]; [eauto | done].
Qed.
End monad.

Lemma on_node_eq n f e w :
  JQuery.on_node n f e w =
  Ok tt (mkWorld (alter f n (document w)) (models w) (views w)
           (trace w ++ match document w !! n with Some _ => [e] | None => [] end)).
Proof.
  unfold JQuery.on_node. destruct w as [d ms vs tr]; simpl.
  destruct (d !! n) as [nd|] eqn:E.
  - unfold log, set_document; simpl. f_equal. f_equal.
    apply map_eq; intros i. rewrite lookup_alter, lookup_insert.
    case_decide; subst; by rewrite ?E.
  - rewrite app_nil_r. f_equal. f_equal.
    apply map_eq; intros i. rewrite lookup_alter.
    case_decide; subst; by rewrite ?E.
Qed.

Lemma html_eq h o w :
  JQuery.html h o w =
  Ok tt (mkWorld (html_document h o (document w)) (models w) (views w)
           (trace w ++ html_trace h o (document w))).
Proof.
  unfold JQuery.html, html_document, html_trace. destruct o as [s|].
  - apply on_node_eq.
  - destruct w; simpl. unfold mret, M_ret, ret. by rewrite app_nil_r.
Qed.

Lemma this_eq w v vw : views w !! v = Some vw → this v w = Ok vw w.
Proof. intros E. unfold this. by rewrite E. Qed.

Lemma deref_eq w m md : models w !! m = Some md → Backbone.deref m w = Ok md w.
Proof. intros E. unfold Backbone.deref. by rewrite E. Qed.

Lemma get_eq w m md name :
  models w !! m = Some md →
  Backbone.get m name w = Ok (attributes md !! name) w.
Proof.
  intros E. unfold Backbone.get. by rewrite (bind_Ok _ _ _ _ _ (deref_eq _ _ _ E)).
Qed.

(** [svg_changed] on a view with a container and a model is one [html]
    call on the container with the model's current [svg]. *)
Lemma svg_changed_eq w v vw h md :
  views w !! v = Some vw → svg vw = Some h →
  models w !! model vw = Some md →
  svg_changed v w = JQuery.html h (attributes md !! "svg") w.
Proof.
  intros Ev Eh Em. unfold svg_changed.
  rewrite (bind_Ok _ _ _ _ _ (this_eq _ _ _ Ev)), Eh.
  by rewrite (bind_Ok _ _ _ _ _ (get_eq _ _ _ "svg" Em)).
Qed.

Lemma render_eq w v vw md :
  views w !! v = Some vw → models w !! model vw = Some md →
  render v w = Ok tt (rendered w v vw md).
Proof.
  intros Ev Em. unfold render.
  erewrite bind_Ok by reflexivity.
  set (h := fresh (dom (document w))).
  unfold assign_svg.
  erewrite bind_Ok; cycle 1.
  { erewrite bind_Ok by (apply this_eq; exact Ev). reflexivity. }
  erewrite bind_Ok; cycle 1.
  { apply this_eq. simpl. apply lookup_insert_eq. }
  simpl.
  erewrite bind_Ok by apply on_node_eq.
  erewrite bind_Ok; cycle 1.
  { erewrite svg_changed_eq; [apply html_eq | simpl; apply lookup_insert_eq
                             | reflexivity | exact Em]. }
  erewrite bind_Ok by apply on_node_eq.
  unfold Backbone.on.
  erewrite bind_Ok by (apply deref_eq; exact Em).
  reflexivity.
Qed.

(** *** Injected markup *)

Lemma inject_inject s s' nd :
  JQuery.inject s (JQuery.inject s' nd) = JQuery.inject s nd.
Proof. done. Qed.

Lemma dom_html_document h o d : dom (html_document h o d) = dom d.
Proof. destruct o; simpl; [apply dom_alter_L | done]. Qed.

Lemma lookup_html_document_is_Some h o d n :
  is_Some (html_document h o d !! n) ↔ is_Some (d !! n).
Proof. by rewrite <-!elem_of_dom, dom_html_document. Qed.

Lemma html_trace_html_document h o h' o' d :
  html_trace h o (html_document h' o' d) = html_trace h o d.
Proof.
  unfold html_trace. destruct o as [s|]; [|done].
  pose proof (lookup_html_document_is_Some h' o' d h) as [H1 H2].
  destruct (d !! h) as [nd|] eqn:E.
  - destruct (H2 (mk_is_Some _ _ eq_refl)) as [x ->]. done.
  - destruct (html_document h' o' d !! h) eqn:E'; [|done].
    destruct (H1 (mk_is_Some _ _ eq_refl)); done.
Qed.

Lemma dom_html_documents o hs d : dom (html_documents o hs d) = dom d.
Proof.
  revert d. induction hs as [|h hs IH]; intros d; [done|].
  unfold html_documents in *; simpl. by rewrite IH, dom_html_document.
Qed.

Lemma lookup_html_documents_Some s hs d n :
  html_documents (Some s) hs d !! n =
  if decide (n ∈ hs) then JQuery.inject s <$> d !! n else d !! n.
Proof.
  revert d. induction hs as [|h hs IH]; intros d.
  - by rewrite decide_False by apply not_elem_of_nil.
  - unfold html_documents in *; simpl. rewrite IH. simpl.
    rewrite lookup_alter.
    destruct (decide (n ∈ hs)) as [Hin|Hin].
    + rewrite (decide_True (P := n ∈ h :: hs)) by by right.
      case_decide; subst; [|done].
      destruct (d !! n); simpl; [|done]. by rewrite inject_inject.
    + case_decide; subst.
      * rewrite (decide_True (P := n ∈ n :: hs)) by by left. done.
      * rewrite (decide_False (P := n ∈ h :: hs)); [done|].
        intros [->|]%elem_of_cons; done.
Qed.

Lemma html_documents_None hs d : html_documents None hs d = d.
Proof. revert d; induction hs; intros d; [done|]. apply IHhs. Qed.

Lemma html_traces_html_document o hs h' o' d :
  html_traces o hs (html_document h' o' d) = html_traces o hs d.
Proof.
  unfold html_traces. induction hs as [|h hs IH]; [done|].
  rewrite !bind_cons. by rewrite IH, html_trace_html_document.
Qed.

(** *** Running the callbacks of a model *)

Lemma run_listeners_eq m md ls : ∀ w,
  models w !! m = Some md →
  (∀ l, l ∈ ls →
     ∃ vw, views w !! l_context l = Some vw ∧ model vw = m ∧ is_Some (svg vw)) →
  run_listeners ls w = Ok tt (notified w md ls).
Proof.
  induction ls as [|l ls IH]; intros w Em Hls.
  - destruct w; unfold notified; simpl. unfold mret, M_ret, ret.
    by rewrite app_nil_r.
  - destruct (Hls l) as (vw & Ev & Emv & [h Eh]); [by left|].
    simpl. unfold invoke. destruct (l_callback l).
    erewrite bind_Ok; cycle 1.
    { erewrite svg_changed_eq; [apply html_eq | exact Ev | exact Eh
                               | by rewrite Emv]. }
    rewrite IH; cycle 1.
    { exact Em. }
    { intros l' Hl'. apply Hls. by right. }
    unfold notified, targets; simpl. rewrite Ev; simpl. rewrite Eh; simpl.
    f_equal. f_equal.
    by rewrite html_traces_html_document, <-app_assoc.
Qed.

Lemma trigger_eq w m md ev :
  wf w → models w !! m = Some md →
  trigger m ev w = Ok tt (notified w md (listening ev (events md))).
Proof.
  intros Hwf Em. unfold trigger.
  erewrite bind_Ok by (apply deref_eq; exact Em).
  apply (run_listeners_eq m); [done|].
  intros l [_ Hl]%list_elem_of_filter. by apply (wf_listener w Hwf m md).
Qed.

Lemma store_attribute_eq w m md name value :
  models w !! m = Some md →
  store_attribute m name value w = Ok tt (stored w m md name value).
Proof.
  intros Em. unfold store_attribute.
  by erewrite bind_Ok by (apply deref_eq; exact Em).
Qed.

(** *** Well-formedness is preserved *)

Lemma wf_notified w md ls : wf w → wf (notified w md ls).
Proof.
  intros [H1 H2 H3 H4 H5 H6].
  split; unfold notified; simpl; rewrite ?dom_html_documents; eauto.
Qed.

Lemma wf_stored w m md name value :
  wf w → models w !! m = Some md → wf (stored w m md name value).
Proof.
  intros [H1 H2 H3 H4 H5 H6] Em. split; unfold stored; simpl; eauto.
  - intros v vw Ev. destruct (decide (model vw = m)) as [->|Hne].
    + rewrite lookup_insert_eq. eauto.
    + rewrite lookup_insert_ne by done. eauto.
  - intros m' md' l. destruct (decide (m = m')) as [->|Hne].
    + rewrite lookup_insert_eq. intros [= <-]; simpl. eauto.
    + rewrite lookup_insert_ne by done. eauto.
  - intros m' md'. destruct (decide (m = m')) as [->|Hne].
    + rewrite lookup_insert_eq. intros [= <-]; simpl. eauto.
    + rewrite lookup_insert_ne by done. eauto.
Qed.

Lemma update_eq w m md name value :
  wf w → models w !! m = Some md →
  update m name value w =
  Ok tt (notified (stored w m md name value)
           (mkModel (<[name := value]> (attributes md)) (events md))
           (listening ("change:" ++ name) (events md))).
Proof.
  intros Hwf Em. unfold update.
  erewrite bind_Ok by (apply store_attribute_eq; exact Em).
  unfold notify_change.
  rewrite (trigger_eq _ m
             (mkModel (<[name := value]> (attributes md)) (events md)));
    [done | by apply wf_stored |].
  unfold stored; simpl. apply lookup_insert_eq.
Qed.

Lemma wf_update w w' m name value :
  wf w → update m name value w = Ok tt w' → wf w'.
Proof.
  intros Hwf. destruct (models w !! m) as [md|] eqn:Em.
  - rewrite (update_eq w m md) by done. intros [= <-].
    by apply wf_notified, wf_stored.
  - unfold update, store_attribute.
    erewrite bind_Throw; [done|].
    apply bind_Throw. unfold Backbone.deref. by rewrite Em.
Qed.

Lemma wf_table w m md table :
  wf w → models w !! m = Some md →
  wf (set_models (<[m := mkModel table (events md)]> (models w)) w).
Proof.
  intros [H1 H2 H3 H4 H5 H6] Em. split; simpl; eauto.
  - intros v vw Ev. destruct (decide (model vw = m)) as [->|Hne].
    + rewrite lookup_insert_eq. eauto.
    + rewrite lookup_insert_ne by done. eauto.
  - intros m' md' l. destruct (decide (m = m')) as [->|Hne].
    + rewrite lookup_insert_eq. intros [= <-]; simpl. eauto.
    + rewrite lookup_insert_ne by done. eauto.
  - intros m' md'. destruct (decide (m = m')) as [->|Hne].
    + rewrite lookup_insert_eq. intros [= <-]; simpl. eauto.
    + rewrite lookup_insert_ne by done. eauto.
Qed.

Lemma unset_eq w m md name :
  wf w → models w !! m = Some md →
  unset m name w =
  Ok tt (notified
           (set_models (<[m := mkModel (delete name (attributes md)) (events md)]>
                          (models w)) w)
           (mkModel (delete name (attributes md)) (events md))
           (listening ("change:" ++ name) (events md))).
Proof.
  intros Hwf Em. unfold unset, remove_attribute.
  erewrite bind_Ok; cycle 1.
  { erewrite bind_Ok by (apply deref_eq; exact Em). reflexivity. }
  unfold notify_change.
  rewrite (trigger_eq _ m (mkModel (delete name (attributes md)) (events md)));
    [done | by apply wf_table |].
  simpl. apply lookup_insert_eq.
Qed.

Lemma unset_Ok_inv w m name w' :
  wf w → unset m name w = Ok tt w' →
  ∃ md, models w !! m = Some md ∧
        w' = notified
               (set_models
                  (<[m := mkModel (delete name (attributes md)) (events md)]>
                     (models w)) w)
               (mkModel (delete name (attributes md)) (events md))
               (listening ("change:" ++ name) (events md)).
Proof.
  intros Hwf. destruct (models w !! m) as [md|] eqn:Em.
  - rewrite (unset_eq w m md) by done. intros [= <-]. eauto.
  - unfold unset, remove_attribute.
    erewrite bind_Throw; [done|].
    apply bind_Throw. unfold Backbone.deref. by rewrite Em.
Qed.

Lemma wf_unset w w' m name : wf w → unset m name w = Ok tt w' → wf w'.
Proof.
  intros Hwf (md & Em & ->)%unset_Ok_inv; [|done].
  by apply wf_notified, wf_table.
Qed.

(** *** The world after [render] *)

Lemma fresh_node w : document w !! fresh (dom (document w)) = None.
Proof. apply not_elem_of_dom, is_fresh. Qed.

Lemma fresh_node_ne w n :
  n ∈ dom (document w) → n ≠ fresh (dom (document w)).
Proof. intros Hn ->. by apply (is_fresh (dom (document w))). Qed.

Lemma dom_rendered w v vw md :
  dom (document (rendered w v vw md)) =
  {[fresh (dom (document w))]} ∪ dom (document w).
Proof.
  unfold rendered; simpl.
  by rewrite dom_alter_L, dom_html_document, dom_alter_L, dom_insert_L.
Qed.

Lemma rendered_container w v vw md :
  el vw ∈ dom (document w) →
  document (rendered w v vw md) !! fresh (dom (document w)) =
  Some (mkNode "svg" ∅ [] (default "" (attributes md !! "svg"))).
Proof.
  intros Hel%fresh_node_ne. unfold rendered; simpl.
  rewrite lookup_alter_ne by done.
  destruct (attributes md !! "svg") as [s|]; simpl.
  - rewrite lookup_alter_eq, lookup_alter_ne, lookup_insert_eq by done. done.
  - rewrite lookup_alter_ne, lookup_insert_eq by done. done.
Qed.

Lemma rendered_host w v vw md nd :
  document w !! el vw = Some nd →
  document (rendered w v vw md) !! el vw =
  Some (JQuery.set_attr "overflow" "hidden"
          (JQuery.add_child (fresh (dom (document w))) nd)).
Proof.
  intros End.
  assert (el vw ≠ fresh (dom (document w))) as Hne.
  { apply fresh_node_ne, elem_of_dom. by rewrite End. }
  unfold rendered; simpl. rewrite lookup_alter_eq.
  destruct (attributes md !! "svg") as [s|]; simpl.
  - rewrite lookup_alter_ne, lookup_alter_eq, lookup_insert_ne, End by done. done.
  - rewrite lookup_alter_eq, lookup_insert_ne, End by done. done.
Qed.

Lemma rendered_other w v vw md n :
  n ≠ fresh (dom (document w)) → n ≠ el vw →
  document (rendered w v vw md) !! n = document w !! n.
Proof.
  intros Hn1 Hn2. unfold rendered; simpl. rewrite lookup_alter_ne by done.
  destruct (attributes md !! "svg") as [s|]; simpl.
  - by rewrite !lookup_alter_ne, lookup_insert_ne by done.
  - by rewrite lookup_alter_ne, lookup_insert_ne by done.
Qed.

Lemma rendered_trace w v vw md nd s :
  document w !! el vw = Some nd → attributes md !! "svg" = Some s →
  trace (rendered w v vw md) =
  (trace w ++ mount_effects v vw (fresh (dom (document w))) s)%list.
Proof.
  intros End Es.
  assert (el vw ≠ fresh (dom (document w))) as Hne.
  { apply fresh_node_ne, elem_of_dom. by rewrite End. }
  unfold rendered, html_trace, mount_effects; simpl. rewrite Es; simpl.
  rewrite lookup_alter_ne, lookup_insert_eq by done.
  rewrite lookup_insert_ne, End by done.
  rewrite lookup_alter_ne, lookup_alter_eq, lookup_insert_ne, End by done.
  simpl. by rewrite <-!app_assoc.
Qed.

Lemma wf_rendered w v vw md :
  wf w → views w !! v = Some vw → svg vw = None →
  models w !! model vw = Some md → wf (rendered w v vw md).
Proof.
  intros [H1 H2 H3 H4 H5 H6] Ev Esvg Em.
  assert (∀ m md' l, models w !! m = Some md' → l ∈ events md' →
            l_context l ≠ v) as Hctx.
  { intros m md' l Em' Hl Hv. destruct (H5 m md' l Em' Hl) as (vw' & Ev' & _ & Hs).
    rewrite Hv, Ev in Ev'. injection Ev' as <-. rewrite Esvg in Hs.
    by destruct Hs. }
  split.
  - intros v' vw'. rewrite dom_rendered. unfold rendered; simpl.
    destruct (decide (v = v')) as [<-|Hne].
    + rewrite lookup_insert_eq. intros [= <-]; simpl.
      apply elem_of_union_r. eauto.
    + rewrite lookup_insert_ne by done. intros Ev'.
      apply elem_of_union_r. eauto.
  - intros v' vw'. unfold rendered; simpl.
    assert (∀ m, is_Some (models w !! m) →
              is_Some (<[model vw := mkModel (attributes md)
                 (events md ++ [mkListener "change:svg" cb_svg_changed v])]>
                 (models w) !! m)) as Hm.
    { intros m Hm. destruct (decide (model vw = m)) as [<-|Hne].
      - rewrite lookup_insert_eq. eauto.
      - by rewrite lookup_insert_ne by done. }
    destruct (decide (v = v')) as [<-|Hne].
    + rewrite lookup_insert_eq. intros [= <-]; simpl. apply Hm. eauto.
    + rewrite lookup_insert_ne by done. intros Ev'. apply Hm. eauto.
  - intros v' vw' h. rewrite dom_rendered. unfold rendered; simpl.
    destruct (decide (v = v')) as [<-|Hne].
    + rewrite lookup_insert_eq. intros [= <-]; simpl. intros [= <-].
      apply elem_of_union_l. by apply elem_of_singleton.
    + rewrite lookup_insert_ne by done. intros Ev' Eh.
      apply elem_of_union_r. eauto.
  - intros v1 v2 vw1 vw2 h. unfold rendered; simpl.
    destruct (decide (v = v1)) as [<-|Hne1];
      destruct (decide (v = v2)) as [<-|Hne2]; [done| | |].
    + rewrite lookup_insert_eq, lookup_insert_ne by done.
      intros [= <-] Ev2; simpl. intros [= <-] Eh.
      destruct (is_fresh (dom (document w))). eauto.
    + rewrite lookup_insert_eq, lookup_insert_ne by done.
      intros Ev1 [= <-]; simpl. intros Eh [= <-].
      destruct (is_fresh (dom (document w))). eauto.
    + rewrite !lookup_insert_ne by done. eauto.
  - intros m md' l. unfold rendered; simpl.
    destruct (decide (model vw = m)) as [<-|Hne].
    + rewrite lookup_insert_eq. intros [= <-]; simpl.
      intros [Hl| ->%list_elem_of_singleton]%elem_of_app.
      * destruct (H5 _ _ _ Em Hl) as (vw' & Ev' & Em' & Hs).
        exists vw'. rewrite lookup_insert_ne; [done|].
        intros Hv. by apply (Hctx _ _ _ Em Hl).
      * simpl. rewrite lookup_insert_eq. eexists; split; [done|]. simpl; eauto.
    + rewrite lookup_insert_ne by done. intros Em' Hl.
      destruct (H5 _ _ _ Em' Hl) as (vw' & Ev' & Emv & Hs).
      exists vw'. rewrite lookup_insert_ne; [done|].
      intros Hv. by apply (Hctx _ _ _ Em' Hl).
  - intros m md'. unfold rendered; simpl.
    destruct (decide (model vw = m)) as [<-|Hne].
    + rewrite lookup_insert_eq. intros [= <-]; simpl.
      rewrite fmap_app; simpl. apply NoDup_app. split; [eauto|]. split.
      * intros x Hx ->%list_elem_of_singleton.
        apply list_elem_of_fmap in Hx as (l & Hv & Hl).
        by apply (Hctx _ _ _ Em Hl).
      * apply NoDup_singleton.
    + rewrite lookup_insert_ne by done. eauto.
Qed.

Lemma rendered_content w v vw md :
  content (rendered w v vw md) v = Some (default "" (attributes md !! "svg")).
Proof.
  unfold content, rendered, html_document; simpl.
  rewrite lookup_insert_eq; simpl.
  generalize (fresh (dom (document w))); intros h.
  destruct (decide (el vw = h)) as [->|Hne];
    destruct (attributes md !! "svg") as [s|]; simpl.
  - by rewrite !lookup_alter_eq, lookup_insert_eq.
  - by rewrite !lookup_alter_eq, lookup_insert_eq.
  - by rewrite lookup_alter_ne, lookup_alter_eq, lookup_alter_ne,
       lookup_insert_eq by done.
  - by rewrite !lookup_alter_ne, lookup_insert_eq by done.
Qed.

Lemma render_Ok_inv w v w' :
  render v w = Ok tt w' →
  ∃ vw md, views w !! v = Some vw ∧ models w !! model vw = Some md ∧
           w' = rendered w v vw md.
Proof.
  intros Hr. destruct (views w !! v) as [vw|] eqn:Ev.
  - destruct (models w !! model vw) as [md|] eqn:Em.
    + rewrite (render_eq w v vw md) in Hr by done. injection Hr as <-. eauto.
    + exfalso. revert Hr. unfold render.
      erewrite bind_Ok by reflexivity.
      erewrite bind_Ok; cycle 1.
      { unfold assign_svg. erewrite bind_Ok by (apply this_eq; exact Ev).
        reflexivity. }
      erewrite bind_Ok; cycle 1.
      { apply this_eq. simpl. apply lookup_insert_eq. }
      simpl. erewrite bind_Ok by apply on_node_eq.
      erewrite bind_Throw; [done|].
      unfold svg_changed. erewrite bind_Ok; cycle 1.
      { apply this_eq. simpl. apply lookup_insert_eq. }
      simpl. apply bind_Throw. apply bind_Throw.
      unfold Backbone.deref; simpl. by rewrite Em.
  - exfalso. revert Hr. unfold render.
    erewrite bind_Ok by reflexivity.
    erewrite bind_Throw; [done|].
    unfold assign_svg. apply bind_Throw. unfold this; simpl. by rewrite Ev.
Qed.

(** *** Containers reached by a notification *)

Lemma elem_of_targets w ls h :
  h ∈ targets w ls ↔
  ∃ l vw, l ∈ ls ∧ views w !! l_context l = Some vw ∧ svg vw = Some h.
Proof.
  unfold targets. rewrite list_elem_of_omap. split.
  - intros (l & Hl & Hh). destruct (views w !! l_context l) as [vw|] eqn:Ev;
      [|done]. simpl in Hh. eauto.
  - intros (l & vw & Hl & Ev & Hh). exists l. split; [done|].
    by rewrite Ev.
Qed.

Lemma subscription_listening v ls :
  subscription v ∈ ls → subscription v ∈ listening "change:svg" ls.
Proof. intros Hl. unfold listening. by apply list_elem_of_filter. Qed.

Lemma subscribed_mounted w v :
  wf w → subscribed w v →
  ∃ vw md h, views w !! v = Some vw ∧ svg vw = Some h ∧
             models w !! model vw = Some md ∧ subscription v ∈ events md ∧
             is_Some (document w !! h).
Proof.
  intros Hwf (vw & md & Ev & Em & Hl).
  destruct (wf_listener w Hwf _ _ _ Em Hl) as (vw' & Ev' & _ & [h Eh]).
  simpl in Ev'. rewrite Ev in Ev'. injection Ev' as <-.
  exists vw, md, h. repeat split; try done.
  apply elem_of_dom. by apply (wf_container w Hwf v vw).
Qed.

Lemma subscribed_rendered w v vw md :
  views w !! v = Some vw → subscribed (rendered w v vw md) v.
Proof.
  intros Ev. eexists _, _. unfold rendered; simpl.
  rewrite lookup_insert_eq. split; [done|]. simpl.
  rewrite lookup_insert_eq. split; [done|]. simpl.
  apply elem_of_app. right. by apply list_elem_of_singleton.
Qed.

(** One stored value and its notification: every subscribed view of the
    model shows the value afterwards. *)
Lemma update_content w v vw value :
  wf w → subscribed w v → views w !! v = Some vw →
  ∃ w', update (model vw) "svg" value w = Ok tt w' ∧
        content w' v = Some value ∧
        wf w' ∧ subscribed w' v ∧ views w' = views w.
Proof.
  intros Hwf Hsub Ev.
  destruct (subscribed_mounted w v Hwf Hsub)
    as (vw' & md & h & Ev' & Eh & Em & Hl & [nd End]).
  rewrite Ev in Ev'. injection Ev' as <-.
  eexists. split; [by apply update_eq|].
  split; [|split; [|split]].
  - unfold content, notified, stored; simpl. rewrite Ev; simpl. rewrite Eh; simpl.
    rewrite lookup_insert_eq.
    rewrite lookup_html_documents_Some, decide_True, End; [done|].
    apply elem_of_targets. exists (subscription v), vw.
    split; [by apply subscription_listening|done].
  - by apply wf_notified, wf_stored.
  - exists vw. eexists. unfold notified, stored; simpl.
    rewrite lookup_insert_eq. done.
  - done.
Qed.

Lemma updates_content w v vw values : ∀ shown,
  wf w → subscribed w v → views w !! v = Some vw →
  content w v = Some shown →
  ∃ w', updates (model vw) "svg" values w = Ok tt w' ∧
        content w' v = Some (default shown (last values)) ∧
        wf w' ∧ subscribed w' v ∧ views w' = views w.
Proof.
  revert w. induction values as [|value rest IH]; intros w shown Hwf Hsub Ev Hc.
  - exists w. done.
  - destruct (update_content w v vw value Hwf Hsub Ev)
      as (w1 & Hu & Hc1 & Hwf1 & Hsub1 & Hv1).
    destruct (IH w1 value Hwf1 Hsub1) as (w2 & Hus & Hc2 & Hwf2 & Hsub2 & Hv2);
      [by rewrite Hv1 | done |].
    exists w2. split.
    + simpl. by erewrite bind_Ok by exact Hu.
    + split; [|by rewrite Hv2, Hv1].
      rewrite Hc2. f_equal. destruct rest as [|s rest]; [done|].
      rewrite last_cons_cons.
      destruct (last (s :: rest)) eqn:E; [done|]. by apply last_None in E.
Qed.

(** *** The concrete worlds are well formed *)

Ltac lookup_cases :=
  repeat match goal with
    | H : <[_:=_]> _ !! _ = Some _ |- _ =>
        apply lookup_insert_Some in H as [[<- <-]|[? H]]
    | H : {[_:=_]} !! _ = Some _ |- _ =>
        apply lookup_singleton_Some in H as [<- <-]
    | H : ∅ !! _ = Some _ |- _ => by rewrite lookup_empty in H
    | H : _ ∈ [] |- _ => by apply not_elem_of_nil in H
    end.

Ltac concrete_wf :=
  split; simpl; intros; lookup_cases; simpl in *;
  try done; try (by eexists); try set_solver; try apply NoDup_nil_2.

Lemma wf_w0 : wf w0.
Proof. concrete_wf. Qed.

Lemma wf_w2 : wf w2.
Proof. concrete_wf. Qed.

Lemma wf_render w v w' :
  wf w → unmounted w v → render v w = Ok tt w' → wf w'.
Proof.
  intros Hwf (vw & Ev & Esvg) (vw' & md & Ev' & Em & ->)%render_Ok_inv.
  rewrite Ev in Ev'. injection Ev' as <-. by apply wf_rendered.
Qed.

Lemma wf_w2_mounted : wf w2_mounted.
Proof.
  assert (∃ w1, render 0 w2 = Ok tt w1 ∧ unmounted w1 1 ∧
                render 1 w1 = Ok tt w2_mounted) as (w1 & Hr0 & Hu & Hr1).
  { eexists. split; [reflexivity|]. split; [|reflexivity].
    exists (mkView 1 1 None). split; reflexivity. }
  eapply wf_render; [|exact Hu|exact Hr1].
  eapply wf_render; [exact wf_w2| |exact Hr0].
  exists (mkView 0 0 None). split; reflexivity.
Qed.

(** *** Every reachable world is well formed *)

Lemma wf_empty_world : wf empty_world.
Proof. concrete_wf. Qed.

Lemma wf_step w w' : wf w → step w w' → wf w'.
Proof.
  intros Hwf Hstep. destruct Hstep as
    [w tag n w' Hc | w table | w host m Hhost Hm | w v w' Hu Hr
    | w m name value w' Hu | w m name w' Hu].
  - injection Hc as <- <-. destruct Hwf as [H1 H2 H3 H4 H5 H6].
    split; simpl; eauto; rewrite ?dom_insert_L.
    + intros v vw Ev. apply elem_of_union_r. eauto.
    + intros v vw h Ev Eh. apply elem_of_union_r. eauto.
  - destruct Hwf as [H1 H2 H3 H4 H5 H6].
    assert (models w !! fresh (dom (models w)) = None) as Hfresh
      by apply not_elem_of_dom, is_fresh.
    split; simpl; eauto.
    + intros v vw Ev. destruct (H2 v vw Ev) as [md Em].
      rewrite lookup_insert_ne; [by rewrite Em|]. intros E. by rewrite E, Em in Hfresh.
    + intros m md l [[<- <-]|[_ Em]]%lookup_insert_Some; simpl; [|by eauto].
      intros Hl. by apply not_elem_of_nil in Hl.
    + intros m md [[<- <-]|[_ Em]]%lookup_insert_Some; simpl; [|by eauto].
      apply NoDup_nil_2.
  - destruct Hwf as [H1 H2 H3 H4 H5 H6].
    assert (views w !! fresh (dom (views w)) = None) as Hfresh
      by apply not_elem_of_dom, is_fresh.
    split; simpl; eauto.
    + intros v vw [[<- <-]|[_ Ev]]%lookup_insert_Some; simpl; eauto.
    + intros v vw [[<- <-]|[_ Ev]]%lookup_insert_Some; simpl; [|by eauto].
      by apply elem_of_dom.
    + intros v vw h [[<- <-]|[_ Ev]]%lookup_insert_Some; simpl; [done|by eauto].
    + intros v1 v2 vw1 vw2 h [[<- <-]|[_ Ev1]]%lookup_insert_Some
        [[<- <-]|[_ Ev2]]%lookup_insert_Some; simpl; try done. eauto.
    + intros m' md l Em Hl. destruct (H5 m' md l Em Hl) as (vw & Ev & Hvw).
      exists vw. split; [|done]. rewrite lookup_insert_ne; [done|].
      intros E. by rewrite <-E, Hfresh in Ev.
  - by eapply wf_render.
  - by eapply wf_update.
  - by eapply wf_unset.
Qed.

Lemma reachable_wf w : reachable w → wf w.
Proof.
  unfold reachable. revert w. apply rtc_ind_r.
  - apply wf_empty_world.
  - intros w1 w2 _ Hstep Hwf. by eapply wf_step.
Qed.

(** *** Views of other models are out of reach of a notification *)

Lemma not_target_of_other_model w m md ls v vw h :
  wf w → models w !! m = Some md → ls ⊆ events md →
  views w !! v = Some vw → svg vw = Some h → model vw ≠ m →
  h ∉ targets w ls.
Proof.
  intros Hwf Em Hls Ev Eh Hne (l & vw' & Hl & Ev' & Eh')%elem_of_targets.
  destruct (wf_listener w Hwf m md l Em (Hls _ Hl)) as (vw'' & Ev'' & Em'' & _).
  rewrite Ev' in Ev''. injection Ev'' as <-.
  assert (l_context l = v) as Hv by (by eapply (wf_own w Hwf)).
  rewrite Hv, Ev in Ev'. injection Ev' as <-. done.
Qed.

Lemma listening_subseteq ev ls : listening ev ls ⊆ ls.
Proof. intros l [_ Hl]%list_elem_of_filter. done. Qed.

Lemma update_content_other w m md name value v vw :
  wf w → models w !! m = Some md →
  views w !! v = Some vw → model vw ≠ m →
  ∃ w', update m name value w = Ok tt w' ∧ content w' v = content w v.
Proof.
  intros Hwf Em Ev Hne. eexists. split; [by apply update_eq|].
  unfold content, notified, stored; simpl. rewrite Ev; simpl.
  destruct (svg vw) as [h|] eqn:Eh; simpl; [|done].
  destruct (<[name:=value]> (attributes md) !! "svg") as [s|];
    [|by rewrite html_documents_None].
  rewrite lookup_html_documents_Some, decide_False; [done|].
  apply (not_target_of_other_model _ m
           (mkModel (<[name:=value]> (attributes md)) (events md)) _ v vw).
  - by apply wf_stored.
  - simpl. apply lookup_insert_eq.
  - apply listening_subseteq.
  - done.
  - done.
  - done.
Qed.

(** *** Counting content replacements *)

Lemma filter_none {A} (P : A → Prop) `{∀ x, Decision (P x)} (l : list A) :
  (∀ x, x ∈ l → ¬ P x) → filter P l = [].
Proof.
  induction l as [|x l IH]; intros Hl; [done|].
  rewrite filter_cons_False by (apply Hl; by left).
  apply IH. intros y Hy. apply Hl. by right.
Qed.

Lemma unmounted_not_listening w v vw m md l :
  wf w → views w !! v = Some vw → svg vw = None →
  models w !! m = Some md → l ∈ events md → l_context l ≠ v.
Proof.
  intros Hwf Ev Esvg Em Hl Hv.
  destruct (wf_listener w Hwf m md l Em Hl) as (vw' & Ev' & _ & Hs).
  rewrite Hv, Ev in Ev'. injection Ev' as <-. rewrite Esvg in Hs.
  by destruct Hs.
Qed.

Lemma NoDup_targets w ls :
  wf w → NoDup (l_context <$> ls) → NoDup (targets w ls).
Proof.
  intros Hwf. induction ls as [|l ls IH]; simpl; intros Hnd.
  - apply NoDup_nil_2.
  - apply NoDup_cons in Hnd as [Hl Hnd].
    unfold targets in *; simpl.
    destruct (views w !! l_context l ≫= svg) as [h|] eqn:E; [|by apply IH].
    apply NoDup_cons. split; [|by apply IH].
    intros (l' & vw' & Hl' & Ev' & Eh')%elem_of_targets.
    destruct (views w !! l_context l) as [vw|] eqn:Ev; [|done]. simpl in E.
    apply Hl, list_elem_of_fmap. exists l'. split; [|done].
    by eapply (wf_own w Hwf).
Qed.

Lemma occurrences_NoDup (x : node_id) (l : list node_id) :
  NoDup l → x ∈ l → length (filter (λ y, y = x) l) = 1.
Proof.
  induction 1 as [|y l Hy Hnd IH]; intros Hx.
  - by apply not_elem_of_nil in Hx.
  - destruct (decide (y = x)) as [->|Hne].
    + rewrite filter_cons_True by done. simpl. f_equal.
      rewrite filter_none; [done|]. by intros z Hz ->.
    + rewrite filter_cons_False by done. apply IH.
      apply elem_of_cons in Hx as [->|]; done.
Qed.

Lemma replacements_app h tr1 tr2 :
  replacements h (tr1 ++ tr2) = replacements h tr1 + replacements h tr2.
Proof. unfold replacements. by rewrite filter_app, length_app. Qed.

Lemma replacements_html_traces h s hs d :
  (∀ h', h' ∈ hs → is_Some (d !! h')) →
  replacements h (html_traces (Some s) hs d) = length (filter (λ y, y = h) hs).
Proof.
  unfold html_traces. induction hs as [|h' hs IH]; intros Hd; [done|].
  rewrite bind_cons, replacements_app, IH by (intros; apply Hd; by right).
  destruct (Hd h') as [nd End]; [by left|].
  unfold html_trace at 1. rewrite End.
  unfold replacements at 1; simpl.
  destruct (decide (h' = h)) as [->|Hne].
  - rewrite (filter_cons_True (λ y, y = h)) by done.
    rewrite (filter_cons_True (λ e, replaces h e = true))
      by (simpl; by apply bool_decide_eq_true). done.
  - rewrite (filter_cons_False (λ y, y = h)) by done.
    rewrite (filter_cons_False (λ e, replaces h e = true)); [done|].
    simpl. by rewrite bool_decide_eq_true.
Qed.

Lemma targets_in_document w ls h :
  wf w → h ∈ targets w ls → is_Some (document w !! h).
Proof.
  intros Hwf (l & vw & _ & Ev & Eh)%elem_of_targets.
  apply elem_of_dom. by apply (wf_container w Hwf (l_context l) vw).
Qed.

(** *** The trace of updates *)

Lemma html_traces_within o hs d : Forall (html_within (dom d)) (html_traces o hs d).
Proof.
  unfold html_traces. induction hs as [|h hs IH]; [by apply Forall_nil|].
  rewrite bind_cons. apply Forall_app. split; [|done].
  unfold html_trace. destruct o as [s|]; [|by apply Forall_nil].
  destruct (d !! h) as [nd|] eqn:E; [|by apply Forall_nil].
  apply Forall_singleton. exists h, s. split; [done|].
  apply elem_of_dom. by rewrite E.
Qed.

Lemma within_no_replacement D h tr :
  h ∉ D → Forall (html_within D) tr → replacements h tr = 0.
Proof.
  intros Hh Htr. unfold replacements. rewrite filter_none; [done|].
  intros e He. rewrite Forall_forall in Htr.
  destruct (Htr e He) as (n & s & -> & Hn). simpl.
  rewrite bool_decide_eq_true. by intros ->.
Qed.

Lemma within_no_registration D v tr :
  Forall (html_within D) tr → registrations v tr = 0.
Proof.
  intros Htr. unfold registrations. rewrite filter_none; [done|].
  intros e He. rewrite Forall_forall in Htr.
  destruct (Htr e He) as (n & s & -> & Hn). done.
Qed.

Lemma update_run w m md name value :
  wf w → models w !! m = Some md →
  ∃ w' tr, update m name value w = Ok tt w' ∧ wf w' ∧
           views w' = views w ∧ dom (document w') = dom (document w) ∧
           models w' !! m =
             Some (mkModel (<[name := value]> (attributes md)) (events md)) ∧
           trace w' = (trace w ++ tr)%list ∧
           Forall (html_within (dom (document w))) tr.
Proof.
  intros Hwf Em. eexists _, _. split; [by apply update_eq|].
  split; [by apply wf_notified, wf_stored|].
  split; [done|].
  split; [unfold notified; simpl; apply dom_html_documents|].
  split; [unfold notified, stored; simpl; apply lookup_insert_eq|].
  split; [reflexivity|]. apply html_traces_within.
Qed.

Lemma updates_run w m name values : ∀ md value,
  wf w → models w !! m = Some md → attributes md !! name = Some value →
  ∃ w' md' tr,
    updates m name values w = Ok tt w' ∧ wf w' ∧
    views w' = views w ∧ dom (document w') = dom (document w) ∧
    models w' !! m = Some md' ∧ events md' = events md ∧
    attributes md' !! name = Some (default value (last values)) ∧
    trace w' = (trace w ++ tr)%list ∧
    Forall (html_within (dom (document w))) tr.
Proof.
  revert w. induction values as [|x rest IH]; intros w md value Hwf Em Es.
  - exists w, md, []. rewrite app_nil_r. split_and!; try done.
  - destruct (update_run w m md name x Hwf Em)
      as (w1 & tr1 & Hu & Hwf1 & Hv1 & Hd1 & Em1 & Ht1 & Hin1).
    destruct (IH w1 _ x Hwf1 Em1) as
      (w2 & md2 & tr2 & Hus & Hwf2 & Hv2 & Hd2 & Em2 & Hev2 & Es2 & Ht2 & Hin2).
    { simpl. apply lookup_insert_eq. }
    exists w2, md2, (tr1 ++ tr2)%list.
    split; [simpl; by erewrite bind_Ok by exact Hu|].
    split; [done|]. split; [by rewrite Hv2|]. split; [by rewrite Hd2|].
    split; [done|]. split; [done|]. split; [|split].
    + rewrite Es2. f_equal. destruct rest as [|y rest]; [done|].
      rewrite last_cons_cons.
      destruct (last (y :: rest)) eqn:E; [done|]. by apply last_None in E.
    + by rewrite Ht2, Ht1, app_assoc.
    + apply Forall_app. split; [done|]. by rewrite <-Hd1.
Qed.

(** * The claims *)

(** C2 (initial render).  For every model whose [svg] attribute holds a
    string [value] when the view is mounted, [render] completes and the
    container's content is then exactly [value]. *)
Theorem initial_render w v vw md value :
  views w !! v = Some vw →
  models w !! model vw = Some md →
  attributes md !! "svg" = Some value →
  ∃ w', render v w = Ok tt w' ∧ content w' v = Some value.
Proof.
  intros Ev Em Es. exists (rendered w v vw md). split.
  - by apply render_eq.
  - by rewrite rendered_content, Es.
Qed.

Lemma initial_render_witness :
  ∃ w', render 0 w0 = Ok tt w' ∧ content w' 0 = Some "<circle r='5'/>".
Proof.
  apply (initial_render w0 0 (mkView 0 0 None)
           (mkModel {[ "svg" := "<circle r='5'/>" ]} [])); reflexivity.
Defined.

(** C1 (reactivity).  Mount a view and then deliver any sequence of
    updates of the model's [svg] attribute, each with its change
    notification: the run completes and the container shows the last
    value stored, or the value found at mount when nothing was stored
    since.  As the sequence is arbitrary, this holds after every single
    update of a longer run. *)
Theorem container_shows_latest w v vw md value values :
  wf w →
  views w !! v = Some vw → svg vw = None →
  models w !! model vw = Some md →
  attributes md !! "svg" = Some value →
  ∃ w', (render v ;; updates (model vw) "svg" values) w = Ok tt w' ∧
        content w' v = Some (default value (last values)).
Proof.
  intros Hwf Ev Esvg Em Es.
  destruct (updates_content (rendered w v vw md) v
              (mkView (el vw) (model vw) (Some (fresh (dom (document w)))))
              values value)
    as (w' & Hus & Hc & _).
  - by apply wf_rendered.
  - by apply subscribed_rendered.
  - unfold rendered; simpl. apply lookup_insert_eq.
  - by rewrite rendered_content, Es.
  - exists w'. split; [|done].
    by erewrite bind_Ok by (by apply render_eq).
Qed.

Lemma container_shows_latest_witness :
  ∃ w', (render 0 ;; updates 0 "svg" ["<rect/>"; "<line/>"; ""]) w0 = Ok tt w' ∧
        content w' 0 = Some "".
Proof.
  apply (container_shows_latest w0 0 (mkView 0 0 None)
           (mkModel {[ "svg" := "<circle r='5'/>" ]} []) "<circle r='5'/>"
           ["<rect/>"; "<line/>"; ""]);
    [exact wf_w0 | reflexivity..].
Defined.

(** C7 (idempotent re-sync).  On a view that has its container and its
    model, two successive calls of [svg_changed] both complete, and the
    second leaves the document, hence the container's content, exactly
    as the first left it. *)
Theorem sync_idempotent w v vw h md :
  views w !! v = Some vw → svg vw = Some h →
  models w !! model vw = Some md →
  ∃ w1 w2, svg_changed v w = Ok tt w1 ∧ svg_changed v w1 = Ok tt w2 ∧
           document w2 = document w1 ∧ content w2 v = content w1 v.
Proof.
  intros Ev Eh Em. eexists _, _.
  split; [by rewrite (svg_changed_eq w v vw h md), html_eq|].
  split; [by rewrite (svg_changed_eq _ v vw h md), html_eq|].
  assert (html_document h (attributes md !! "svg")
            (html_document h (attributes md !! "svg") (document w)) =
          html_document h (attributes md !! "svg") (document w)) as Hd.
  { destruct (attributes md !! "svg") as [s|]; simpl; [|done].
    apply map_eq; intros n. destruct (decide (h = n)) as [->|Hne].
    - rewrite !lookup_alter_eq. by destruct (document w !! n).
    - by rewrite !lookup_alter_ne by done. }
  split; [exact Hd|]. unfold content; simpl. by rewrite Hd.
Qed.

Lemma sync_idempotent_witness :
  ∃ w1 w2, svg_changed 0 (rendered w0 0 (mkView 0 0 None)
                            (mkModel {[ "svg" := "<circle r='5'/>" ]} []))
           = Ok tt w1 ∧
           svg_changed 0 w1 = Ok tt w2 ∧
           document w2 = document w1 ∧ content w2 0 = content w1 0.
Proof.
  apply (sync_idempotent _ 0 (mkView 0 0 (Some 1)) 1
           (mkModel {[ "svg" := "<circle r='5'/>" ]}
              [mkListener "change:svg" cb_svg_changed 0])); reflexivity.
Defined.

(** C10 (sync is safe only after mount).  Once [render] has completed on
    a view, [svg_changed] on that view completes too; on a view that was
    never rendered, [this.$svg] is undefined and [svg_changed] raises a
    [TypeError]. *)
Theorem sync_safe_only_after_mount w v :
  (∀ w', render v w = Ok tt w' → ∃ w'', svg_changed v w' = Ok tt w'') ∧
  (unmounted w v → svg_changed v w = Throw TypeError).
Proof.
  split.
  - intros w' (vw & md & Ev & Em & ->)%render_Ok_inv.
    eexists. erewrite svg_changed_eq; [apply html_eq | ..].
    + unfold rendered; simpl. apply lookup_insert_eq.
    + done.
    + unfold rendered; simpl. apply lookup_insert_eq.
  - intros (vw & Ev & Esvg). unfold svg_changed.
    erewrite bind_Ok by (apply this_eq; exact Ev). by rewrite Esvg.
Qed.

Lemma sync_safe_only_after_mount_witness :
  (∃ w', render 0 w0 = Ok tt w' ∧ ∃ w'', svg_changed 0 w' = Ok tt w'') ∧
  svg_changed 0 w0 = Throw TypeError.
Proof.
  destruct (sync_safe_only_after_mount w0 0) as [Hafter Hbefore]. split.
  - eexists. split; [reflexivity|]. apply Hafter. reflexivity.
  - apply Hbefore. exists (mkView 0 0 None). split; reflexivity.
Defined.




(** C5, as claimed, fails: on the one-view world the effects of [render]
    are not in the order create, append, overflow, sync, register. *)
Lemma mount_order_counterexample :
  ¬ ∃ w' h value,
      render 0 w0 = Ok tt w' ∧
      trace w' = (trace w0 ++ spec_mount_effects 0 (mkView 0 0 None) h value)%list.
Proof.
  intros (w' & h & value & Hr & Ht).
  vm_compute in Hr. injection Hr as <-. vm_compute in Ht. discriminate Ht.
Qed.

(** C5, amended.  [render] performs its effects in the order of its
    statements: it creates the [svg] element, appends it to the host
    element, performs the content sync, sets the host's [overflow] to
    [hidden], and registers the callback for [change:svg]. *)
Theorem mount_order w v vw md host value :
  views w !! v = Some vw →
  models w !! model vw = Some md →
  document w !! el vw = Some host →
  attributes md !! "svg" = Some value →
  ∃ w' h, render v w = Ok tt w' ∧
          svg <$> views w' !! v = Some (Some h) ∧
          trace w' = (trace w ++ mount_effects v vw h value)%list.
Proof.
  intros Ev Em Eh Es. eexists _, _. split; [by apply render_eq|].
  split; [|by eapply rendered_trace].
  unfold rendered; simpl. by rewrite lookup_insert_eq.
Qed.

Lemma mount_order_witness :
  ∃ w' h, render 0 w0 = Ok tt w' ∧
          svg <$> views w' !! 0 = Some (Some h) ∧
          trace w' = (trace w0 ++ mount_effects 0 (mkView 0 0 None) h
                                    "<circle r='5'/>")%list.
Proof.
  apply (mount_order w0 0 (mkView 0 0 None)
           (mkModel {[ "svg" := "<circle r='5'/>" ]} [])
           (mkNode "div" ∅ [] "")); reflexivity.
Defined.

(** C9 (isolation).  Two mounted views on two different models: an
    update of the [svg] attribute of the first model, notification
    delivered, is shown by the first view and leaves the content of the
    second view's container as it was. *)
Theorem views_isolated w v1 v2 vw1 vw2 value :
  wf w →
  views w !! v1 = Some vw1 → views w !! v2 = Some vw2 →
  subscribed w v1 → subscribed w v2 →
  model vw1 ≠ model vw2 →
  ∃ w', update (model vw1) "svg" value w = Ok tt w' ∧
        content w' v1 = Some value ∧
        content w' v2 = content w v2.
Proof.
  intros Hwf Ev1 Ev2 Hs1 Hs2 Hne.
  destruct (update_content w v1 vw1 value Hwf Hs1 Ev1) as (w' & Hu & Hc & _).
  exists w'. split; [done|]. split; [done|].
  destruct (wf_model w Hwf v1 vw1 Ev1) as [md Em].
  destruct (update_content_other w (model vw1) md "svg" value v2 vw2)
    as (w'' & Hu' & Hc'); [done..|].
  rewrite Hu in Hu'. by injection Hu' as <-.
Qed.

Lemma views_isolated_witness :
  ∃ w', update 0 "svg" "<g/>" w2_mounted = Ok tt w' ∧
        content w' 0 = Some "<g/>" ∧
        content w' 1 = content w2_mounted 1.
Proof.
  apply (views_isolated w2_mounted 0 1 (mkView 0 0 (Some 2)) (mkView 1 1 (Some 3)));
    [exact wf_w2_mounted | reflexivity | reflexivity | | | simpl; lia].
  - eexists _, _. split; [reflexivity|]. split; [reflexivity|].
    vm_compute. apply list_elem_of_here.
  - eexists _, _. split; [reflexivity|]. split; [reflexivity|].
    vm_compute. apply list_elem_of_here.
Defined.

Lemma spec_overflow_style_hidden_css :
  spec_overflow_style_hidden
    (mkNode "div" {[ "style" := "overflow: hidden;" ]} [] "") = true.
Proof. reflexivity. Qed.

(** *** What a notification writes into a subscribed view's container *)

Lemma written_app h tr1 tr2 :
  written h (tr1 ++ tr2) = (written h tr1 ++ written h tr2)%list.
Proof. unfold written. apply omap_app. Qed.

Lemma written_html_traces h s hs d :
  (∀ h', h' ∈ hs → is_Some (d !! h')) →
  written h (html_traces (Some s) hs d) =
  replicate (length (filter (λ y, y = h) hs)) s.
Proof.
  unfold html_traces. induction hs as [|h' hs IH]; intros Hd; [done|].
  rewrite bind_cons, written_app, IH by (intros; apply Hd; by right).
  destruct (Hd h') as [nd End]; [by left|].
  unfold html_trace at 1. rewrite End. unfold written at 1; simpl.
  destruct (decide (h' = h)) as [->|Hne].
  - by rewrite (filter_cons_True (λ y, y = h)) by done.
  - by rewrite (filter_cons_False (λ y, y = h)) by done.
Qed.

Lemma notified_subscriber w md v vw h s :
  wf w → views w !! v = Some vw → svg vw = Some h →
  models w !! model vw = Some md → subscription v ∈ events md →
  attributes md !! "svg" = Some s →
  ∃ tr,
    trace (notified w md (listening "change:svg" (events md)))
      = (trace w ++ tr)%list ∧
    replacements h tr = 1 ∧ written h tr = [s] ∧
    document (notified w md (listening "change:svg" (events md))) !! h
      = JQuery.inject s <$> document w !! h.
Proof.
  intros Hwf Ev Eh Em Hl Es.
  assert (length (filter (λ y, y = h)
                    (targets w (listening "change:svg" (events md)))) = 1)
    as Hone.
  { apply occurrences_NoDup.
    - apply NoDup_targets; [done|].
      eapply sublist_NoDup; [by apply (wf_once w Hwf (model vw) md)|].
      apply fmap_sublist, sublist_filter.
    - apply elem_of_targets. exists (subscription v), vw.
      split; [by apply subscription_listening|done]. }
  eexists. split; [reflexivity|]. rewrite Es.
  split; [|split].
  - rewrite replacements_html_traces
      by (intros h'; apply targets_in_document; done).
    exact Hone.
  - rewrite written_html_traces
      by (intros h'; apply targets_in_document; done).
    by rewrite Hone.
  - unfold notified; simpl. rewrite Es.
    rewrite lookup_html_documents_Some, decide_True; [done|].
    apply elem_of_targets. exists (subscription v), vw.
    split; [by apply subscription_listening|done].
Qed.

Lemma notifications_container v vw h n : ∀ w md value,
  wf w → views w !! v = Some vw → svg vw = Some h →
  models w !! model vw = Some md → subscription v ∈ events md →
  attributes md !! "svg" = Some value →
  document w !! h = Some (mkNode "svg" ∅ [] value) →
  ∃ w' tr, notifications n (model vw) "svg" w = Ok tt w' ∧
           trace w' = (trace w ++ tr)%list ∧
           replacements h tr = n ∧ written h tr = replicate n value ∧
           document w' !! h = Some (mkNode "svg" ∅ [] value).
Proof.
  induction n as [|n IH]; intros w md value Hwf Ev Eh Em Hl Es Ec.
  - exists w, []. by rewrite app_nil_r.
  - destruct (notified_subscriber w md v vw h value)
      as (tr & Ht & Hr & Hw & Hd); [done..|].
    destruct (IH (notified w md (listening "change:svg" (events md))) md value)
      as (w' & tr' & Hn & Ht' & Hr' & Hw' & Hd');
      [by apply wf_notified | done..| by rewrite Hd, Ec |].
    exists w', (tr ++ tr')%list. split; [|split; [|split; [|split]]].
    + simpl. unfold notify_change at 1.
      by erewrite bind_Ok by (by apply trigger_eq).
    + by rewrite Ht', Ht, app_assoc.
    + rewrite replacements_app. lia.
    + by rewrite written_app, Hw, Hw'.
    + done.
Qed.

Lemma updates_container v vw h values : ∀ w md value,
  wf w → views w !! v = Some vw → svg vw = Some h →
  models w !! model vw = Some md → subscription v ∈ events md →
  document w !! h = Some (mkNode "svg" ∅ [] value) →
  ∃ w' tr, updates (model vw) "svg" values w = Ok tt w' ∧
           trace w' = (trace w ++ tr)%list ∧
           replacements h tr = length values ∧ written h tr = values ∧
           document w' !! h =
             Some (mkNode "svg" ∅ [] (default value (last values))).
Proof.
  induction values as [|x rest IH]; intros w md value Hwf Ev Eh Em Hl Ec.
  - exists w, []. by rewrite app_nil_r.
  - set (md' := mkModel (<["svg" := x]> (attributes md)) (events md)).
    destruct (notified_subscriber (stored w (model vw) md "svg" x) md' v vw h x)
      as (tr & Ht & Hr & Hw & Hd).
    { by apply wf_stored. }
    { done. }
    { done. }
    { unfold stored; simpl. apply lookup_insert_eq. }
    { done. }
    { unfold md'; simpl. apply lookup_insert_eq. }
    destruct (IH (notified (stored w (model vw) md "svg" x) md'
                    (listening "change:svg" (events md'))) md' x)
      as (w' & tr' & Hn & Ht' & Hr' & Hw' & Hd').
    { by apply wf_notified, wf_stored. }
    { done. }
    { done. }
    { unfold notified, stored; simpl. apply lookup_insert_eq. }
    { done. }
    { rewrite Hd. unfold stored; simpl. by rewrite Ec. }
    exists w', (tr ++ tr')%list. split; [|split; [|split; [|split]]].
    + simpl. by erewrite bind_Ok by (by apply update_eq).
    + rewrite Ht', Ht. unfold stored; simpl. by rewrite app_assoc.
    + rewrite replacements_app, Hr, Hr'. done.
    + by rewrite written_app, Hw, Hw'.
    + rewrite Hd'. do 2 f_equal. destruct rest as [|y rest]; [done|].
      rewrite last_cons_cons.
      destruct (last (y :: rest)) eqn:E; [done|]. by apply last_None in E.
Qed.

(** C4, as claimed, fails: on the world whose model has no [svg]
    attribute, three notifications after [render] replace the content of
    the container zero times. *)
Lemma single_subscription_counterexample :
  ¬ ∃ w1 h w2 tr,
      render 0 w_blank = Ok tt w1 ∧ svg <$> views w1 !! 0 = Some (Some h) ∧
      notifications 3 0 "svg" w1 = Ok tt w2 ∧
      trace w2 = (trace w1 ++ tr)%list ∧ replacements h tr = 3.
Proof.
  intros (w1 & h & w2 & tr & Hr & Hh & Hn & Ht & Hc).
  vm_compute in Hr. injection Hr as <-.
  vm_compute in Hh. injection Hh as <-.
  vm_compute in Hn. injection Hn as <-.
  simpl in Ht. injection Ht as <-.
  vm_compute in Hc. discriminate Hc.
Qed.

(** C4, amended.  Before [render] no registry holds an entry for the
    view; [render] adds exactly one, for [change:svg] on the view's own
    model, and none elsewhere.  When the model's [svg] attribute holds a
    string, any number [n] of change notifications delivered afterwards
    replace the content of the container exactly [n] times, each time
    with the model's value, and leave the container holding exactly
    that; and any list of updates replaces it once per update, with the
    values in order. *)
Theorem single_subscription w v vw md value :
  wf w →
  views w !! v = Some vw → svg vw = None →
  models w !! model vw = Some md →
  attributes md !! "svg" = Some value →
  ∃ w1 h,
    render v w = Ok tt w1 ∧ svg <$> views w1 !! v = Some (Some h) ∧
    (∀ m, subscriptions w m v = []) ∧
    (∀ m, subscriptions w1 m v =
          if decide (m = model vw) then [subscription v] else []) ∧
    (∀ n, ∃ w2 tr,
        notifications n (model vw) "svg" w1 = Ok tt w2 ∧
        trace w2 = (trace w1 ++ tr)%list ∧
        replacements h tr = n ∧ written h tr = replicate n value ∧
        document w2 !! h = Some (mkNode "svg" ∅ [] value)) ∧
    (∀ values, ∃ w2 tr,
        updates (model vw) "svg" values w1 = Ok tt w2 ∧
        trace w2 = (trace w1 ++ tr)%list ∧
        replacements h tr = length values ∧ written h tr = values ∧
        document w2 !! h =
          Some (mkNode "svg" ∅ [] (default value (last values)))).
Proof.
  intros Hwf Ev Esvg Em Es.
  assert (∀ m, subscriptions w m v = []) as Hnone.
  { intros m. unfold subscriptions. destruct (models w !! m) as [md'|] eqn:Em';
      [|done].
    apply filter_none. intros l Hl.
    by eapply unmounted_not_listening. }
  set (h := fresh (dom (document w))).
  set (vw1 := mkView (el vw) (model vw) (Some h)).
  set (md1 := mkModel (attributes md) (events md ++ [subscription v])).
  assert (wf (rendered w v vw md)) as Hwf1 by by apply wf_rendered.
  assert (views (rendered w v vw md) !! v = Some vw1) as Ev1
    by (unfold rendered; simpl; apply lookup_insert_eq).
  assert (models (rendered w v vw md) !! model vw1 = Some md1) as Em1
    by (unfold rendered; simpl; apply lookup_insert_eq).
  assert (subscription v ∈ events md1) as Hl1.
  { simpl. apply elem_of_app. right. by apply list_elem_of_singleton. }
  assert (document (rendered w v vw md) !! h = Some (mkNode "svg" ∅ [] value))
    as Ec1.
  { unfold h. rewrite rendered_container, Es; [done|].
    exact (wf_host w Hwf v vw Ev). }
  exists (rendered w v vw md), h.
  split; [by apply render_eq|].
  split; [by rewrite Ev1|].
  split; [done|]. split; [|split].
  - intros m. unfold subscriptions, rendered; simpl.
    destruct (decide (m = model vw)) as [->|Hne].
    + rewrite lookup_insert_eq; simpl. rewrite filter_app.
      specialize (Hnone (model vw)). unfold subscriptions in Hnone.
      rewrite Em in Hnone. rewrite Hnone. simpl.
      by rewrite filter_cons_True by done.
    + rewrite lookup_insert_ne by done. apply Hnone.
  - intros n.
    apply (notifications_container v vw1 h n (rendered w v vw md) md1 value);
      done.
  - intros values.
    apply (updates_container v vw1 h values (rendered w v vw md) md1 value);
      done.
Qed.

Lemma single_subscription_witness :
  ∃ w1 h,
    render 0 w0 = Ok tt w1 ∧ svg <$> views w1 !! 0 = Some (Some h) ∧
    (∃ w2 tr,
        notifications 3 0 "svg" w1 = Ok tt w2 ∧
        trace w2 = (trace w1 ++ tr)%list ∧
        replacements h tr = 3 ∧
        written h tr = replicate 3 "<circle r='5'/>" ∧
        document w2 !! h = Some (mkNode "svg" ∅ [] "<circle r='5'/>")) ∧
    (∃ w2 tr,
        updates 0 "svg" ["<rect/>"; "<line/>"; ""] w1 = Ok tt w2 ∧
        trace w2 = (trace w1 ++ tr)%list ∧
        replacements h tr = 3 ∧
        written h tr = ["<rect/>"; "<line/>"; ""] ∧
        document w2 !! h = Some (mkNode "svg" ∅ [] "")).
Proof.
  destruct (single_subscription w0 0 (mkView 0 0 None)
              (mkModel {[ "svg" := "<circle r='5'/>" ]} []) "<circle r='5'/>"
              wf_w0 eq_refl eq_refl eq_refl eq_refl)
    as (w1 & h & Hr & Hh & _ & _ & Hn & Hu).
  exists w1, h. split; [exact Hr|]. split; [exact Hh|].
  split; [exact (Hn 3)|exact (Hu ["<rect/>"; "<line/>"; ""])].
Defined.

(** C3 (the initial sync comes first).  Let updates of the model be
    delivered before the view is mounted and after it.  The run
    completes; in its trace the effects of [render] appear in one block,
    the initial content replacement before the registration of the
    callback; what precedes the block contains no replacement of the
    view's container and no registration for the view; every later
    replacement comes after the block, hence after the registration. *)
Theorem initial_sync_precedes_notified w v vw md host value before after :
  wf w →
  views w !! v = Some vw → svg vw = None →
  models w !! model vw = Some md →
  document w !! el vw = Some host →
  attributes md !! "svg" = Some value →
  ∃ w' h pre post,
    (updates (model vw) "svg" before ;;
     render v ;;
     updates (model vw) "svg" after) w = Ok tt w' ∧
    svg <$> views w' !! v = Some (Some h) ∧
    trace w' =
      (trace w ++ pre
         ++ mount_effects v vw h (default value (last before)) ++ post)%list ∧
    replacements h pre = 0 ∧ registrations v pre = 0.
Proof.
  intros Hwf Ev Esvg Em Eh Es.
  destruct (updates_run w (model vw) "svg" before md value Hwf Em Es)
    as (w1 & md1 & pre & Hb & Hwf1 & Hv1 & Hd1 & Em1 & Hev1 & Es1 & Ht1 & Hin1).
  assert (views w1 !! v = Some vw) as Ev1 by by rewrite Hv1.
  assert (∃ host1, document w1 !! el vw = Some host1) as [host1 Eh1].
  { apply elem_of_dom. rewrite Hd1. apply elem_of_dom. by rewrite Eh. }
  pose proof (wf_rendered w1 v vw md1 Hwf1 Ev1 Esvg Em1) as Hwf2.
  destruct (updates_run (rendered w1 v vw md1) (model vw) "svg" after
              (mkModel (attributes md1) (events md1 ++ [subscription v]))
              (default value (last before)) Hwf2)
    as (w3 & md3 & post & Ha & Hwf3 & Hv3 & Hd3 & Em3 & Hev3 & Es3 & Ht3 & Hin3).
  { unfold rendered; simpl. apply lookup_insert_eq. }
  { done. }
  exists w3, (fresh (dom (document w))), pre, post.
  split; [|split; [|split; [|split]]].
  - erewrite bind_Ok by exact Hb.
    erewrite bind_Ok by (by apply render_eq). exact Ha.
  - rewrite Hv3. unfold rendered; simpl. rewrite lookup_insert_eq. simpl.
    by rewrite Hd1.
  - rewrite Ht3, (rendered_trace w1 v vw md1 host1 _ Eh1 Es1), Ht1, Hd1.
    by rewrite <-!app_assoc.
  - eapply within_no_replacement; [|exact Hin1]. apply is_fresh.
  - eapply within_no_registration. exact Hin1.
Qed.

Lemma initial_sync_precedes_notified_witness :
  ∃ w' h pre post,
    (updates 0 "svg" ["<rect/>"] ;; render 0 ;; updates 0 "svg" ["<line/>"]) w0
      = Ok tt w' ∧
    svg <$> views w' !! 0 = Some (Some h) ∧
    trace w' =
      (trace w0 ++ pre
         ++ mount_effects 0 (mkView 0 0 None) h "<rect/>" ++ post)%list ∧
    replacements h pre = 0 ∧ registrations 0 pre = 0.
Proof.
  apply (initial_sync_precedes_notified w0 0 (mkView 0 0 None)
           (mkModel {[ "svg" := "<circle r='5'/>" ]} [])
           (mkNode "div" ∅ [] "") "<circle r='5'/>" ["<rect/>"] ["<line/>"]);
    [exact wf_w0 | reflexivity..].
Defined.

(** C8, as claimed, fails: on the one-view world, mounting changes the
    host element by more than the insertion of the new element. *)
Lemma mount_frame_counterexample :
  ¬ ∃ w' h, render 0 w0 = Ok tt w' ∧ spec_mount_document w0 w' 0 h.
Proof.
  intros (w' & h & Hr & _ & Hhost & _).
  specialize (Hhost (mkNode "div" ∅ [] "") eq_refl).
  vm_compute in Hr. injection Hr as <-.
  apply (f_equal (λ o, (λ nd, attrs nd !! "overflow") <$> o)) in Hhost.
  vm_compute in Hhost. discriminate Hhost.
Qed.

(** C8, amended.  [render] leaves the attributes of every model as they
    were and adds to the registry of the view's model the view's one
    entry; in the document it creates the container, and changes the
    host element by appending the container and setting [overflow] to
    [hidden]; every other element is untouched; of the views only the
    [$svg] field of this one changes.  [svg_changed] leaves models and
    views as they were, and of the document changes the container only,
    replacing its content and keeping its tag and attributes. *)
Theorem view_frame w v vw md host :
  views w !! v = Some vw →
  models w !! model vw = Some md →
  document w !! el vw = Some host →
  (∃ w' h,
     render v w = Ok tt w' ∧ (h ∉ dom (document w)) ∧
     (∀ m, attributes <$> models w' !! m = attributes <$> models w !! m) ∧
     models w' = <[model vw := mkModel (attributes md)
                                 (events md ++ [subscription v])]> (models w) ∧
     document w' !! h =
       Some (mkNode "svg" ∅ [] (default "" (attributes md !! "svg"))) ∧
     document w' !! el vw =
       Some (JQuery.set_attr "overflow" "hidden" (JQuery.add_child h host)) ∧
     (∀ n, n ≠ h → n ≠ el vw → document w' !! n = document w !! n) ∧
     views w' = <[v := mkView (el vw) (model vw) (Some h)]> (views w)) ∧
  (∀ h, svg vw = Some h →
     ∃ w', svg_changed v w = Ok tt w' ∧
           models w' = models w ∧ views w' = views w ∧
           (∀ n, n ≠ h → document w' !! n = document w !! n) ∧
           document w' !! h =
             match attributes md !! "svg" with
             | Some s => JQuery.inject s <$> document w !! h
             | None => document w !! h
             end).
Proof.
  intros Ev Em Eh. split.
  - exists (rendered w v vw md), (fresh (dom (document w))).
    split; [by apply render_eq|].
    split; [apply is_fresh|].
    split; [|split; [done|]].
    { intros m. unfold rendered; simpl.
      destruct (decide (model vw = m)) as [<-|Hne].
      - by rewrite lookup_insert_eq, Em.
      - by rewrite lookup_insert_ne by done. }
    split; [apply rendered_container, elem_of_dom; by rewrite Eh|].
    split; [by apply rendered_host|].
    split; [intros n; apply rendered_other|done].
  - intros h Esvg. eexists.
    split; [by rewrite (svg_changed_eq w v vw h md), html_eq|].
    split; [done|]. split; [done|]. simpl. unfold html_document.
    destruct (attributes md !! "svg") as [s|].
    + split; [intros n Hn; by rewrite lookup_alter_ne|apply lookup_alter_eq].
    + done.
Qed.

Lemma view_frame_witness :
  ∃ w' h,
    render 0 w0 = Ok tt w' ∧
    document w' !! 0 =
      Some (JQuery.set_attr "overflow" "hidden"
              (JQuery.add_child h (mkNode "div" ∅ [] ""))) ∧
    ∀ n, n ≠ h → n ≠ 0 → document w' !! n = document w0 !! n.
Proof.
  destruct (view_frame w0 0 (mkView 0 0 None)
              (mkModel {[ "svg" := "<circle r='5'/>" ]} [])
              (mkNode "div" ∅ [] "") eq_refl eq_refl eq_refl)
    as [(w' & h & Hr & _ & _ & _ & _ & Hhost & Hother & _) _].
  exists w', h. split; [exact Hr|]. split; [exact Hhost|exact Hother].
Defined.

(** * Further properties of [render] and [svg_changed] *)

Lemma world_eta w : mkWorld (document w) (models w) (views w) (trace w) = w.
Proof. by destruct w. Qed.

Lemma render_model_missing w v vw :
  views w !! v = Some vw → models w !! model vw = None →
  render v w = Throw TypeError.
Proof.
  intros Ev Em. destruct (render v w) as [[] w'|[]] eqn:Hr; [|done].
  apply render_Ok_inv in Hr as (vw' & md & Ev' & Em' & _).
  rewrite Ev in Ev'. injection Ev' as <-. by rewrite Em in Em'.
Qed.

(** X1 (missing key at sync).  When the model has no [svg] attribute,
    [svg_changed] on a mounted view returns normally and leaves the
    world exactly as it was: the container keeps whatever it showed. *)
Theorem sync_without_svg_attribute w v vw h md :
  views w !! v = Some vw → svg vw = Some h →
  models w !! model vw = Some md →
  attributes md !! "svg" = None →
  svg_changed v w = Ok tt w.
Proof.
  intros Ev Eh Em Es.
  rewrite (svg_changed_eq w v vw h md), html_eq, Es by done.
  unfold html_document, html_trace. by rewrite app_nil_r, world_eta.
Qed.

Lemma sync_without_svg_attribute_witness :
  svg_changed 0 (rendered w_blank 0 (mkView 0 0 None) (mkModel ∅ []))
  = Ok tt (rendered w_blank 0 (mkView 0 0 None) (mkModel ∅ [])).
Proof.
  apply (sync_without_svg_attribute _ 0 (mkView 0 0 (Some 1)) 1
           (mkModel ∅ [mkListener "change:svg" cb_svg_changed 0]));
    reflexivity.
Defined.

(** X2 (missing key at mount).  When the model has no [svg] attribute,
    [render] still completes: the container is created empty, appended,
    the host gets its [overflow], the callback is registered, and no
    content replacement takes place. *)
Theorem mount_without_svg_attribute w v vw md host :
  views w !! v = Some vw →
  models w !! model vw = Some md →
  document w !! el vw = Some host →
  attributes md !! "svg" = None →
  ∃ w' h, render v w = Ok tt w' ∧
          svg <$> views w' !! v = Some (Some h) ∧
          document w' !! h = Some (mkNode "svg" ∅ [] "") ∧
          trace w' = (trace w ++ [CreateElement h "svg";
                                  Append (el vw) h;
                                  SetAttr (el vw) "overflow" "hidden";
                                  On (model vw) "change:svg" cb_svg_changed v])%list.
Proof.
  intros Ev Em Eh Es. eexists _, _. split; [by apply render_eq|].
  split; [unfold rendered; simpl; by rewrite lookup_insert_eq|].
  split.
  - rewrite rendered_container, Es; [done|]. apply elem_of_dom. by rewrite Eh.
  - assert (el vw ≠ fresh (dom (document w))) as Hne.
    { apply fresh_node_ne, elem_of_dom. by rewrite Eh. }
    unfold rendered, html_trace, html_document; simpl. rewrite Es; simpl.
    rewrite lookup_insert_ne, Eh by done.
    rewrite lookup_alter_eq, lookup_insert_ne, Eh by done. simpl.
    by rewrite app_nil_r, <-!app_assoc.
Qed.

Lemma mount_without_svg_attribute_witness :
  ∃ w' h, render 0 w_blank = Ok tt w' ∧
          svg <$> views w' !! 0 = Some (Some h) ∧
          document w' !! h = Some (mkNode "svg" ∅ [] "") ∧
          trace w' = (trace w_blank ++ [CreateElement h "svg";
                                        Append 0 h;
                                        SetAttr 0 "overflow" "hidden";
                                        On 0 "change:svg" cb_svg_changed 0])%list.
Proof.
  apply (mount_without_svg_attribute w_blank 0 (mkView 0 0 None)
           (mkModel ∅ []) (mkNode "div" ∅ [] "")); reflexivity.
Defined.

(** X3 (failure of [render]).  On an existing view, [render] raises a
    [TypeError] exactly when the view's model is missing; otherwise it
    returns normally. *)
Theorem render_fails_iff_model_missing w v vw :
  views w !! v = Some vw →
  (render v w = Throw TypeError ↔ models w !! model vw = None) ∧
  ((∃ w', render v w = Ok tt w') ↔ is_Some (models w !! model vw)).
Proof.
  intros Ev. destruct (models w !! model vw) as [md|] eqn:Em.
  - rewrite (render_eq w v vw md) by done. split; split; try done; eauto.
  - rewrite (render_model_missing w v vw) by done.
    split; split; try done; by intros [? ?].
Qed.

Lemma render_fails_iff_model_missing_witness :
  render 0 w_orphan = Throw TypeError ∧ ∃ w', render 0 w0 = Ok tt w'.
Proof.
  split.
  - apply (render_fails_iff_model_missing w_orphan 0 (mkView 0 0 None));
      reflexivity.
  - apply (render_fails_iff_model_missing w0 0 (mkView 0 0 None));
      [reflexivity|]. by eexists.
Defined.

(** X4 (failure of [svg_changed]).  On an existing view, [svg_changed]
    raises a [TypeError] exactly when the view has no container yet or
    its model is missing. *)
Theorem sync_fails_iff w v vw :
  views w !! v = Some vw →
  (svg_changed v w = Throw TypeError ↔
   svg vw = None ∨ models w !! model vw = None).
Proof.
  intros Ev. unfold svg_changed.
  erewrite bind_Ok by (apply this_eq; exact Ev).
  destruct (svg vw) as [h|] eqn:Eh.
  - destruct (models w !! model vw) as [md|] eqn:Em.
    + erewrite bind_Ok by (by apply get_eq). rewrite html_eq.
      split; [done|]. by intros [|].
    + split; [by right|]. intros _. apply bind_Throw.
      unfold Backbone.get. apply bind_Throw.
      unfold Backbone.deref. by rewrite Em.
  - split; [by left|done].
Qed.

Lemma sync_fails_iff_witness :
  svg_changed 0 w0 = Throw TypeError ↔
  svg (mkView 0 0 None) = None ∨ models w0 !! model (mkView 0 0 None) = None.
Proof.
  apply (sync_fails_iff w0 0 (mkView 0 0 None)). reflexivity.
Defined.

Lemma wf_w_shared : wf w_shared.
Proof.
  pose (w := mkWorld {[ 0 := mkNode "div" ∅ [] ""; 1 := mkNode "div" ∅ [] "" ]}
               {[ 0 := mkModel {[ "svg" := "<rect/>" ]} [] ]}
               {[ 0 := mkView 0 0 None; 1 := mkView 1 0 None ]} []).
  assert (wf w) as Hwf by (subst w; concrete_wf).
  assert (∃ w1, render 0 w = Ok tt w1 ∧ unmounted w1 1 ∧
                render 1 w1 = Ok tt w_shared) as (w1 & Hr0 & Hu & Hr1).
  { eexists. split; [reflexivity|]. split; [|reflexivity].
    exists (mkView 1 0 None). split; reflexivity. }
  eapply wf_render; [|exact Hu|exact Hr1].
  eapply wf_render; [exact Hwf| |exact Hr0].
  exists (mkView 0 0 None). split; reflexivity.
Qed.

(** X5 (views sharing a model).  Two mounted views on the same model:
    one update of the model's [svg] attribute, notification delivered,
    is shown by both containers. *)
Theorem shared_model_views_agree w v1 v2 vw1 vw2 value :
  wf w →
  views w !! v1 = Some vw1 → views w !! v2 = Some vw2 →
  subscribed w v1 → subscribed w v2 →
  model vw1 = model vw2 →
  ∃ w', update (model vw1) "svg" value w = Ok tt w' ∧
        content w' v1 = Some value ∧ content w' v2 = Some value.
Proof.
  intros Hwf Ev1 Ev2 Hs1 Hs2 Hm.
  destruct (update_content w v1 vw1 value Hwf Hs1 Ev1) as (w' & Hu & Hc & _).
  destruct (update_content w v2 vw2 value Hwf Hs2 Ev2) as (w'' & Hu' & Hc' & _).
  rewrite <-Hm, Hu in Hu'. injection Hu' as <-. eauto.
Qed.

Lemma shared_model_views_agree_witness :
  ∃ w', update 0 "svg" "<g/>" w_shared = Ok tt w' ∧
        content w' 0 = Some "<g/>" ∧ content w' 1 = Some "<g/>".
Proof.
  apply (shared_model_views_agree w_shared 0 1
           (mkView 0 0 (Some 2)) (mkView 1 0 (Some 3)));
    [exact wf_w_shared | reflexivity | reflexivity | | | reflexivity].
  - eexists _, _. split; [reflexivity|]. split; [reflexivity|].
    vm_compute. apply list_elem_of_here.
  - eexists _, _. split; [reflexivity|]. split; [reflexivity|].
    vm_compute. apply list_elem_of_further, list_elem_of_here.
Defined.

Lemma subscribed_rendered_other w v v' vw md :
  views w !! v = Some vw → models w !! model vw = Some md → v ≠ v' →
  subscribed w v' → subscribed (rendered w v vw md) v'.
Proof.
  intros Ev Em Hne (vw' & md' & Ev' & Em' & Hl).
  exists vw'. cut (∃ md0, models (rendered w v vw md) !! model vw' = Some md0 ∧
                          subscription v' ∈ events md0).
  { intros (md0 & ? & ?). exists md0. split; [|done].
    unfold rendered; simpl. by rewrite lookup_insert_ne. }
  unfold rendered; simpl.
  destruct (decide (model vw = model vw')) as [Heq|Hm].
  - rewrite <-Heq, lookup_insert_eq. eexists. split; [done|].
    simpl. apply elem_of_app. left.
    rewrite <-Heq, Em in Em'. by injection Em' as <-.
  - rewrite lookup_insert_ne by done. eauto.
Qed.

(** X6 (mounting next to other views).  [render] on one view leaves
    every other mounted view whose container is not the host being
    mounted on as it was: the same view record, the container element
    itself untouched (tag, attributes, child elements and markup), and
    still subscribed if it was. *)
Theorem mount_leaves_other_views w v v' vw vw' md h' nd' :
  views w !! v = Some vw →
  models w !! model vw = Some md →
  views w !! v' = Some vw' → v ≠ v' →
  svg vw' = Some h' → document w !! h' = Some nd' →
  h' ≠ el vw →
  ∃ w', render v w = Ok tt w' ∧
        views w' !! v' = Some vw' ∧
        document w' !! h' = Some nd' ∧
        (subscribed w v' → subscribed w' v').
Proof.
  intros Ev Em Ev' Hne Eh' End' Hhost. exists (rendered w v vw md).
  split; [by apply render_eq|].
  split; [unfold rendered; simpl; by rewrite lookup_insert_ne|].
  split.
  - rewrite rendered_other; [done| |done].
    apply fresh_node_ne, elem_of_dom. by rewrite End'.
  - by apply subscribed_rendered_other.
Qed.

Lemma mount_leaves_other_views_witness :
  ∃ w', render 1 w2_half = Ok tt w' ∧
        views w' !! 0 = Some (mkView 0 0 (Some 2)) ∧
        document w' !! 2 = Some (mkNode "svg" ∅ [] "<rect/>") ∧
        (subscribed w2_half 0 → subscribed w' 0).
Proof.
  apply (mount_leaves_other_views w2_half 1 0 (mkView 1 1 None)
           (mkView 0 0 (Some 2)) (mkModel {[ "svg" := "<line/>" ]} []) 2
           (mkNode "svg" ∅ [] "<rect/>"));
    [reflexivity | reflexivity | reflexivity | lia
    | reflexivity | reflexivity | simpl; lia].
Defined.

(** *** What every reachable world satisfies *)

Lemma update_Ok_inv w m name value w' :
  wf w → update m name value w = Ok tt w' →
  ∃ md, models w !! m = Some md ∧
        w' = notified (stored w m md name value)
               (mkModel (<[name := value]> (attributes md)) (events md))
               (listening ("change:" ++ name) (events md)).
Proof.
  intros Hwf. destruct (models w !! m) as [md|] eqn:Em.
  - rewrite (update_eq w m md) by done. intros [= <-]. eauto.
  - unfold update, store_attribute.
    erewrite bind_Throw; [done|].
    apply bind_Throw. unfold Backbone.deref. by rewrite Em.
Qed.

Lemma listening_other_attribute name ls :
  name ≠ "svg" →
  (∀ l, l ∈ ls → l = subscription (l_context l)) →
  listening ("change:" ++ name) ls = [].
Proof.
  intros Hname Hls. apply filter_none. intros l Hl E.
  rewrite (Hls l Hl) in E. simpl in E. apply Hname.
  cbv [String.append] in E. by injection E.
Qed.

Lemma live_empty_world : live empty_world.
Proof.
  split; [apply wf_empty_world|..]; simpl; intros; lookup_cases.
Qed.

Lemma hosted_rendered w v vw md h' :
  views w !! v = Some vw →
  (∃ v0 vw0, views w !! v0 = Some vw0 ∧ el vw0 = h') →
  ∃ v0 vw0, views (rendered w v vw md) !! v0 = Some vw0 ∧ el vw0 = h'.
Proof.
  intros Ev (v0 & vw0 & Ev0 & Eel). unfold rendered; simpl.
  destruct (decide (v = v0)) as [<-|Hne].
  - rewrite Ev in Ev0. injection Ev0 as <-.
    eexists v, _. by rewrite lookup_insert_eq.
  - exists v0, vw0. by rewrite lookup_insert_ne.
Qed.

Lemma live_rendered w v vw md :
  live w → views w !! v = Some vw → svg vw = None →
  models w !! model vw = Some md → live (rendered w v vw md).
Proof.
  intros [Hwf H1 H2 H3] Ev Esvg Em. split.
  - by apply wf_rendered.
  - intros m md' l. unfold rendered; simpl.
    intros [[<- <-]|[_ Em']]%lookup_insert_Some; simpl; [|by eauto].
    intros [Hl| ->%list_elem_of_singleton]%elem_of_app; [by eauto|done].
  - intros v' vw' h'. destruct (decide (v = v')) as [<-|Hne].
    + intros _ _. by apply subscribed_rendered.
    + intros Ev' Eh'. unfold rendered in Ev'; simpl in Ev'.
      rewrite lookup_insert_ne in Ev' by done.
      apply subscribed_rendered_other; [done..|]. by eapply H2.
  - intros v' vw' h'. destruct (decide (v = v')) as [<-|Hne].
    + intros Ev1 Eh1.
      assert (views (rendered w v vw md) !! v =
              Some (mkView (el vw) (model vw) (Some (fresh (dom (document w))))))
        as Ev2 by (unfold rendered; simpl; apply lookup_insert_eq).
      rewrite Ev2 in Ev1. injection Ev1 as <-. simpl in Eh1.
      injection Eh1 as <-.
      exists (mkNode "svg" ∅ [] (default "" (attributes md !! "svg"))),
             (mkModel (attributes md) (events md ++ [subscription v])).
      split; [apply rendered_container, (wf_host w Hwf v vw Ev)|].
      split; [unfold rendered; simpl; apply lookup_insert_eq|].
      split; [done|]. simpl. split.
      * intros s Es. by rewrite Es.
      * intros c Hc. by apply not_elem_of_nil in Hc.
    + intros Ev1 Eh'.
      assert (views w !! v' = Some vw') as Ev'.
      { unfold rendered in Ev1; simpl in Ev1.
        by rewrite lookup_insert_ne in Ev1. }
      destruct (H3 v' vw' h' Ev' Eh')
        as (nd & md' & End & Em' & Ht & Hc & Hch).
      assert (∃ nd', document (rendered w v vw md) !! h' = Some nd' ∧
                     tagName nd' = tagName nd ∧ innerHTML nd' = innerHTML nd ∧
                     ∀ c, c ∈ childNodes nd' →
                          c ∈ childNodes nd ∨ h' = el vw)
        as (nd' & End' & Ht' & Hc' & Hch').
      { destruct (decide (h' = el vw)) as [->|Hhost].
        - eexists. split; [by apply rendered_host|].
          split; [done|]. split; [done|]. by right.
        - exists nd. rewrite rendered_other; [|by apply fresh_node_ne,
            elem_of_dom; rewrite End|done].
          split; [done|]. split; [done|]. split; [done|]. by left. }
      assert (∃ md'', models (rendered w v vw md) !! model vw' = Some md'' ∧
                      attributes md'' = attributes md')
        as (md'' & Em'' & Ha).
      { unfold rendered; simpl.
        destruct (decide (model vw = model vw')) as [Heq|Hm].
        - rewrite <-Heq, lookup_insert_eq. eexists. split; [done|]. simpl.
          rewrite <-Heq, Em in Em'. by injection Em' as <-.
        - rewrite lookup_insert_ne by done. eauto. }
      exists nd', md''. rewrite Ht', Hc', Ha.
      split; [done|]. split; [done|]. split; [done|]. split; [done|].
      intros c [Hin| ->]%Hch'.
      * apply hosted_rendered; [done|]. by apply (Hch c).
      * apply hosted_rendered; [done|]. eauto.
Qed.

(** The attribute table of model [m] is replaced by one that differs
    from it at [name] at most, and [change:name] is delivered. *)
Lemma live_notified_table w m md table name :
  live w → models w !! m = Some md →
  (∀ key, key ≠ name → table !! key = attributes md !! key) →
  live (notified
          (set_models (<[m := mkModel table (events md)]> (models w)) w)
          (mkModel table (events md))
          (listening ("change:" ++ name) (events md))).
Proof.
  intros [Hwf H1 H2 H3] Em Htable.
  pose proof (wf_table w m md table Hwf Em) as Hwf'.
  split.
  - by apply wf_notified.
  - intros m' md' l. unfold notified; simpl.
    intros [[<- <-]|[_ Em']]%lookup_insert_Some; simpl; by eauto.
  - intros v vw h Ev Eh. unfold notified in Ev; simpl in Ev.
    destruct (H2 v vw h Ev Eh) as (vw' & md' & Ev' & Em' & Hl).
    rewrite Ev in Ev'. injection Ev' as <-.
    exists vw.
    cut (∃ md0, <[m := mkModel table (events md)]> (models w) !! model vw
                = Some md0 ∧ subscription v ∈ events md0).
    { intros (md0 & ? & ?). by exists md0. }
    destruct (decide (m = model vw)) as [->|Hne].
    + rewrite lookup_insert_eq. eexists. split; [done|]. simpl.
      rewrite Em in Em'. by injection Em' as <-.
    + rewrite lookup_insert_ne by done. eauto.
  - intros v vw h Ev Eh. unfold notified in Ev; simpl in Ev.
    destruct (H3 v vw h Ev Eh) as (nd & md' & End & Em' & Ht & Hc & Hch).
    destruct (H2 v vw h Ev Eh) as (vw' & md'' & Ev' & Em'' & Hl).
    rewrite Ev in Ev'. injection Ev' as <-.
    rewrite Em' in Em''. injection Em'' as <-.
    cut (∃ nd' md0,
           html_documents (table !! "svg")
             (targets (set_models (<[m := mkModel table (events md)]> (models w)) w)
                (listening ("change:" ++ name) (events md))) (document w) !! h
           = Some nd' ∧
           <[m := mkModel table (events md)]> (models w) !! model vw = Some md0 ∧
           tagName nd' = "svg" ∧
           (∀ s, attributes md0 !! "svg" = Some s → innerHTML nd' = s) ∧
           (∀ c, c ∈ childNodes nd' →
                 ∃ v' vw', views w !! v' = Some vw' ∧ el vw' = h)).
    { intros (nd' & md0 & ? & ? & ? & ? & ?). by exists nd', md0. }
    destruct (decide (m = model vw)) as [->|Hm].
    + rewrite Em in Em'. injection Em' as <-.
      rewrite lookup_insert_eq.
      destruct (decide (name = "svg")) as [->|Hname].
      * destruct (table !! "svg") as [s|] eqn:Es.
        -- rewrite lookup_html_documents_Some, decide_True, End.
           { eexists _, _. split; [done|]. split; [done|]. simpl.
             split; [done|]. split.
             - intros s'. rewrite Es. by intros [= <-].
             - intros c Hin. by apply not_elem_of_nil in Hin. }
           apply elem_of_targets. exists (subscription v), vw.
           split; [by apply subscription_listening|done].
        -- rewrite html_documents_None. exists nd. eexists.
           split; [done|]. split; [done|]. split; [done|]. simpl.
           split; [by rewrite Es|done].
      * rewrite (listening_other_attribute name (events md)) by eauto.
        change (targets _ []) with (@nil node_id).
        assert (html_documents (table !! "svg") [] (document w) = document w)
          as -> by done.
        exists nd. eexists. split; [done|]. split; [done|]. split; [done|].
        simpl. split; [|done]. intros s. rewrite Htable by done. apply Hc.
    + rewrite (lookup_insert_ne (models w) m (model vw)) by done.
      assert (html_documents (table !! "svg")
                (targets (set_models (<[m := mkModel table (events md)]>
                                        (models w)) w)
                   (listening ("change:" ++ name) (events md))) (document w) !! h
              = document w !! h) as ->.
      { destruct (table !! "svg") as [s|];
          [|by rewrite html_documents_None].
        rewrite lookup_html_documents_Some, decide_False; [done|].
        apply (not_target_of_other_model _ m (mkModel table (events md)) _ v vw).
        - done.
        - simpl. apply lookup_insert_eq.
        - apply listening_subseteq.
        - done.
        - done.
        - done. }
      eauto 10.
Qed.

Lemma live_step w w' : live w → step w w' → live w'.
Proof.
  intros Hlive Hstep. pose proof (live_wf w Hlive) as Hwf.
  destruct Hstep as
    [w tag n w' Hc | w table | w host m Hhost Hm | w v w' Hu Hr
    | w m name value w' Hu | w m name w' Hu].
  - assert (wf w') as Hwf' by (eapply wf_step; [done|by eapply step_element]).
    injection Hc as <- <-. destruct Hlive as [_ H1 H2 H3].
    split; [done|by eauto|by eauto|]. simpl.
    intros v vw h Ev Eh.
    destruct (H3 v vw h Ev Eh) as (nd & md & End & Em & Hrest).
    exists nd, md. split; [|done].
    rewrite lookup_insert_ne; [done|].
    intros E. pose proof (fresh_node w) as Hf. by rewrite E, End in Hf.
  - assert (wf (set_models (<[fresh (dom (models w)) := mkModel table []]>
                              (models w)) w)) as Hwf'
      by (eapply wf_step; [done|by apply step_model]).
    assert (models w !! fresh (dom (models w)) = None) as Hfresh
      by apply not_elem_of_dom, is_fresh.
    destruct Hlive as [_ H1 H2 H3]. split; [done|..]; simpl.
    + intros m md l [[<- <-]|[_ Em]]%lookup_insert_Some; simpl; [|by eauto].
      intros Hl. by apply not_elem_of_nil in Hl.
    + intros v vw h Ev Eh. destruct (H2 v vw h Ev Eh) as (vw' & md & Ev' & Em & Hl).
      exists vw', md. split; [done|]. split; [|done]. simpl.
      rewrite lookup_insert_ne; [done|]. intros E. by rewrite E, Em in Hfresh.
    + intros v vw h Ev Eh.
      destruct (H3 v vw h Ev Eh) as (nd & md & End & Em & Hrest).
      exists nd, md. split; [done|]. split; [|done].
      rewrite lookup_insert_ne; [done|]. intros E. by rewrite E, Em in Hfresh.
  - assert (wf (set_views (<[fresh (dom (views w)) := mkView host m None]>
                             (views w)) w)) as Hwf'
      by (eapply wf_step; [done|by apply step_view]).
    assert (views w !! fresh (dom (views w)) = None) as Hfresh
      by apply not_elem_of_dom, is_fresh.
    destruct Hlive as [_ H1 H2 H3]. split; [done|by eauto|..]; simpl.
    + intros v vw h [[<- <-]|[Hne Ev]]%lookup_insert_Some; simpl; [done|].
      intros Eh. destruct (H2 v vw h Ev Eh) as (vw' & md & Ev' & Em & Hl).
      exists vw', md. split; [|done]. simpl. by rewrite lookup_insert_ne.
    + intros v vw h [[<- <-]|[Hne Ev]]%lookup_insert_Some; simpl; [done|].
      intros Eh.
      destruct (H3 v vw h Ev Eh) as (nd & md & End & Em & Ht & Hc & Hch).
      exists nd, md. split; [done|]. split; [done|]. split; [done|].
      split; [done|]. intros c Hin.
      destruct (Hch c Hin) as (v' & vw' & Ev' & Eel).
      exists v', vw'. split; [|done]. rewrite lookup_insert_ne; [done|].
      intros E. by rewrite E, Ev' in Hfresh.
  - destruct Hu as (vw & Ev & Esvg).
    apply render_Ok_inv in Hr as (vw' & md & Ev' & Em & ->).
    rewrite Ev in Ev'. injection Ev' as <-. by apply live_rendered.
  - apply update_Ok_inv in Hu as (md & Em & ->); [|done].
    apply (live_notified_table w m md (<[name := value]> (attributes md)) name);
      [done..|]. intros key Hkey. by rewrite lookup_insert_ne.
  - apply unset_Ok_inv in Hu as (md & Em & ->); [|done].
    apply (live_notified_table w m md (delete name (attributes md)) name);
      [done..|]. intros key Hkey. by rewrite lookup_delete_ne.
Qed.

Lemma reachable_live w : reachable w → live w.
Proof.
  unfold reachable. revert w. apply rtc_ind_r.
  - apply live_empty_world.
  - intros w1 w2 _ Hstep Hlive. by eapply live_step.
Qed.

Lemma reachable_w_live : reachable w_live.
Proof.
  unfold reachable.
  eapply rtc_r; [eapply rtc_r; [eapply rtc_r; [eapply rtc_r;
    [apply rtc_refl|]|]|]|].
  - by apply (step_element empty_world "div" 0 (run (JQuery.create "div") empty_world)).
  - apply (step_model _ {[ "svg" := "<circle r='5'/>" ]}).
  - apply (step_view _ 0 0); apply elem_of_dom; by eexists.
  - apply (step_render _ 0); [|reflexivity].
    exists (mkView 0 0 None). split; reflexivity.
Qed.

Lemma filter_unique {A B} `{EqDecision B} (f : A → B) (x : A) (l : list A) :
  NoDup (f <$> l) → x ∈ l → filter (λ y, f y = f x) l = [x].
Proof.
  induction l as [|y l IH]; intros Hnd Hx; [by apply not_elem_of_nil in Hx|].
  rewrite fmap_cons in Hnd. apply NoDup_cons in Hnd as [Hy Hnd].
  apply elem_of_cons in Hx as [->|Hx].
  - rewrite filter_cons_True by done. f_equal.
    apply filter_none. intros z Hz E. apply Hy. rewrite <-E.
    apply list_elem_of_fmap. eauto.
  - rewrite filter_cons_False; [by apply IH|].
    intros E. apply Hy. rewrite E. apply list_elem_of_fmap. eauto.
Qed.

(** X7 (other attributes).  In every reachable world, an update of a
    model attribute other than [svg], notification delivered, completes
    and touches neither the document nor the views: only [change:svg]
    reaches a view. *)
Theorem other_attributes_ignored w m md name value :
  reachable w →
  models w !! m = Some md →
  name ≠ "svg" →
  ∃ w', update m name value w = Ok tt w' ∧
        document w' = document w ∧ views w' = views w ∧ trace w' = trace w.
Proof.
  intros Hlive%reachable_live Em Hname.
  eexists. split; [apply update_eq; [by apply live_wf|done]|].
  rewrite (listening_other_attribute name (events md))
    by (try done; intros l; by apply (live_entry w Hlive m md)).
  unfold notified, targets; simpl. by rewrite app_nil_r.
Qed.

Lemma other_attributes_ignored_witness :
  ∃ w', update 0 "title" "clock" w_live = Ok tt w' ∧
        document w' = document w_live ∧ views w' = views w_live ∧
        trace w' = trace w_live.
Proof.
  apply (other_attributes_ignored w_live 0
           (mkModel {[ "svg" := "<circle r='5'/>" ]} [subscription 0]));
    [exact reachable_w_live | reflexivity | done].
Defined.

(** X8 (the container follows the model, everywhere).  In every
    reachable world, whatever views and models exist and in whatever
    order they were mounted, updated and unset, take a mounted view
    whose model has an [svg] string at present and on whose container no
    view is hosted: its container is an [svg] element without child
    elements whose markup is exactly that string. *)
Theorem mounted_views_show_model w v vw h md s :
  reachable w →
  views w !! v = Some vw → svg vw = Some h →
  models w !! model vw = Some md →
  attributes md !! "svg" = Some s →
  (∀ v' vw', views w !! v' = Some vw' → el vw' ≠ h) →
  ∃ nd, document w !! h = Some nd ∧ tagName nd = "svg" ∧
        childNodes nd = [] ∧ innerHTML nd = s ∧
        content w v = Some s.
Proof.
  intros Hlive%reachable_live Ev Eh Em Es Hfree.
  destruct (live_container w Hlive v vw h Ev Eh)
    as (nd & md' & End & Em' & Ht & Hc & Hch).
  rewrite Em in Em'. injection Em' as <-.
  exists nd. split; [done|]. split; [done|]. split; [|split].
  - destruct (childNodes nd) as [|c cs] eqn:E; [done|].
    destruct (Hch c) as (v' & vw' & Ev' & Eel); [by left|].
    by destruct (Hfree v' vw' Ev').
  - by apply Hc.
  - unfold content. rewrite Ev; simpl. rewrite Eh; simpl.
    rewrite End; simpl. f_equal. by apply Hc.
Qed.

Lemma mounted_views_show_model_witness :
  ∃ nd, document w_live !! 1 = Some nd ∧ tagName nd = "svg" ∧
        childNodes nd = [] ∧ innerHTML nd = "<circle r='5'/>" ∧
        content w_live 0 = Some "<circle r='5'/>".
Proof.
  apply (mounted_views_show_model w_live 0 (mkView 0 0 (Some 1)) 1
           (mkModel {[ "svg" := "<circle r='5'/>" ]} [subscription 0]));
    [exact reachable_w_live | reflexivity | reflexivity | reflexivity
    | reflexivity |].
  intros v' vw'. change (views w_live) with ({[ 0 := mkView 0 0 (Some 1) ]}
                                              : gmap view_id View).
  intros [<- <-]%lookup_singleton_Some. simpl. lia.
Defined.

(** X9 (one subscription per mounted view, everywhere).  In every
    reachable world the registry entries naming a view are: exactly one,
    for [change:svg], in the registry of its own model when the view is
    mounted, and none anywhere otherwise. *)
Theorem one_subscription_per_view w v vw m :
  reachable w →
  views w !! v = Some vw →
  subscriptions w m v =
    match svg vw with
    | Some _ => if decide (m = model vw) then [subscription v] else []
    | None => []
    end.
Proof.
  intros Hlive%reachable_live Ev. pose proof (live_wf w Hlive) as Hwf.
  unfold subscriptions.
  destruct (svg vw) as [h|] eqn:Eh.
  - destruct (decide (m = model vw)) as [->|Hm].
    + destruct (live_subscribed w Hlive v vw h Ev Eh)
        as (vw' & md & Ev' & Em & Hl).
      rewrite Ev in Ev'. injection Ev' as <-. rewrite Em.
      apply (filter_unique l_context (subscription v));
        [by apply (wf_once w Hwf (model vw))|done].
    + destruct (models w !! m) as [md|] eqn:Em; [|done].
      apply filter_none. intros l Hl Hv.
      destruct (wf_listener w Hwf m md l Em Hl) as (vw' & Ev' & Hm' & _).
      rewrite Hv, Ev in Ev'. injection Ev' as <-. done.
  - destruct (models w !! m) as [md|] eqn:Em; [|done].
    apply filter_none. intros l Hl. by eapply unmounted_not_listening.
Qed.

Lemma one_subscription_per_view_witness :
  subscriptions w_live 0 0 = [subscription 0].
Proof.
  apply (one_subscription_per_view w_live 0 (mkView 0 0 (Some 1)) 0);
    [exact reachable_w_live | reflexivity].
Defined.

(** *** Rendering a view a second time *)

Lemma trigger_eq_listeners w m md ev :
  models w !! m = Some md →
  (∀ l, l ∈ events md →
     ∃ vw, views w !! l_context l = Some vw ∧ model vw = m ∧ is_Some (svg vw)) →
  trigger m ev w = Ok tt (notified w md (listening ev (events md))).
Proof.
  intros Em Hls. unfold trigger.
  erewrite bind_Ok by (apply deref_eq; exact Em).
  apply (run_listeners_eq m); [done|].
  intros l [_ Hl]%list_elem_of_filter. by apply Hls.
Qed.

Lemma targets_app w ls1 ls2 :
  targets w (ls1 ++ ls2) = (targets w ls1 ++ targets w ls2)%list.
Proof. unfold targets. apply omap_app. Qed.

Lemma listening_app ev ls1 ls2 :
  listening ev (ls1 ++ ls2) = (listening ev ls1 ++ listening ev ls2)%list.
Proof. unfold listening. apply filter_app. Qed.

Lemma targets_subscription w v vw h :
  views w !! v = Some vw → svg vw = Some h →
  targets w (listening "change:svg" [subscription v]) = [h].
Proof.
  intros Ev Eh. unfold listening. rewrite filter_cons_True by done.
  unfold targets; simpl. by rewrite Ev; simpl; rewrite Eh.
Qed.

(** X10 ([render] twice on the same view).  Nothing in [render] guards
    against a second call: it makes a second container, appends it to
    the host after the first, moves [this.$svg] to it and registers the
    callback a second time.  From then on one update replaces the
    content of the second container twice, and the first container,
    still in the document, keeps the content it had. *)
Theorem second_render w v vw md host value x :
  wf w →
  views w !! v = Some vw → svg vw = None →
  models w !! model vw = Some md →
  document w !! el vw = Some host →
  attributes md !! "svg" = Some value →
  ∃ w2 h1 h2,
    (render v ;; render v) w = Ok tt w2 ∧ h1 ≠ h2 ∧
    svg <$> views w2 !! v = Some (Some h2) ∧
    childNodes <$> document w2 !! el vw = Some (childNodes host ++ [h1; h2])%list ∧
    subscriptions w2 (model vw) v = [subscription v; subscription v] ∧
    ∃ w3 tr,
      update (model vw) "svg" x w2 = Ok tt w3 ∧
      trace w3 = (trace w2 ++ tr)%list ∧
      replacements h2 tr = 2 ∧ replacements h1 tr = 0 ∧
      innerHTML <$> document w3 !! h1 = Some value ∧
      innerHTML <$> document w3 !! h2 = Some x.
Proof.
  intros Hwf Ev Esvg Em Eh Es.
  set (h1 := fresh (dom (document w))).
  set (w1 := rendered w v vw md).
  set (vw1 := mkView (el vw) (model vw) (Some h1)).
  set (md1 := mkModel (attributes md) (events md ++ [subscription v])).
  set (h2 := fresh (dom (document w1))).
  set (w2 := rendered w1 v vw1 md1).
  set (md2 := mkModel (attributes md) ((events md ++ [subscription v])
                                        ++ [subscription v])).
  assert (views w1 !! v = Some vw1) as Ev1
    by (unfold w1, rendered; simpl; apply lookup_insert_eq).
  assert (models w1 !! model vw1 = Some md1) as Em1
    by (unfold w1, rendered; simpl; apply lookup_insert_eq).
  assert (el vw ∈ dom (document w)) as Hel
    by (apply elem_of_dom; by rewrite Eh).
  assert (dom (document w1) = {[h1]} ∪ dom (document w)) as Hd1
    by apply dom_rendered.
  assert (dom (document w2) = {[h2]} ∪ dom (document w1)) as Hd2
    by apply dom_rendered.
  assert (h2 ∉ dom (document w1)) as Hh2 by apply is_fresh.
  assert (h1 ≠ h2) as Hne.
  { intros E. apply Hh2. rewrite Hd1, <-E.
    by apply elem_of_union_l, elem_of_singleton. }
  assert (h1 ≠ el vw) as Hh1el.
  { intros E. apply (is_fresh (dom (document w))). fold h1. by rewrite E. }
  assert (document w1 !! h1 = Some (mkNode "svg" ∅ [] value)) as Ec1.
  { unfold w1, h1. rewrite rendered_container by done. by rewrite Es. }
  assert (document w1 !! el vw =
          Some (JQuery.set_attr "overflow" "hidden" (JQuery.add_child h1 host)))
    as Eh1 by (by apply rendered_host).
  assert (document w2 !! h1 = Some (mkNode "svg" ∅ [] value)) as Ec21.
  { unfold w2. rewrite rendered_other; [done| |done]. exact Hne. }
  assert (document w2 !! h2 = Some (mkNode "svg" ∅ [] value)) as Ec22.
  { unfold w2, h2. rewrite rendered_container.
    - unfold md1; simpl. by rewrite Es.
    - rewrite Hd1. apply elem_of_union_r. exact Hel. }
  assert (views w2 !! v = Some (mkView (el vw) (model vw) (Some h2))) as Ev2
    by (unfold w2, rendered; simpl; apply lookup_insert_eq).
  assert (models w2 !! model vw = Some md2) as Em2
    by (unfold w2, rendered; simpl; apply lookup_insert_eq).
  assert (∀ v', v' ≠ v → views w2 !! v' = views w !! v') as Hviews.
  { intros v' Hv'. unfold w2, w1, rendered; simpl.
    by rewrite !lookup_insert_ne by done. }
  assert (∀ l, l ∈ events md →
            ∃ vw', views w2 !! l_context l = Some vw' ∧ model vw' = model vw ∧
                   ∃ h, svg vw' = Some h ∧ h ∈ dom (document w)) as Hold.
  { intros l Hl.
    destruct (wf_listener w Hwf _ _ _ Em Hl) as (vw' & Ev' & Em' & [h Eh']).
    exists vw'. rewrite Hviews by (by eapply unmounted_not_listening).
    split; [done|]. split; [done|]. exists h. split; [done|].
    by apply (wf_container w Hwf (l_context l) vw'). }
  exists w2, h1, h2.
  split.
  { erewrite bind_Ok by (by apply render_eq). by apply render_eq. }
  split; [done|].
  split; [by rewrite Ev2|].
  split.
  { assert (document w2 !! el vw =
            Some (JQuery.set_attr "overflow" "hidden"
                    (JQuery.add_child h2
                       (JQuery.set_attr "overflow" "hidden"
                          (JQuery.add_child h1 host))))) as ->
      by exact (rendered_host w1 v vw1 md1 _ Eh1).
    simpl. by rewrite <-app_assoc. }
  split.
  { unfold subscriptions. rewrite Em2. simpl. rewrite !filter_app.
    rewrite (filter_none _ (events md))
      by (intros l Hl; by eapply unmounted_not_listening).
    simpl. by rewrite !filter_cons_True by done. }
  set (w2s := stored w2 (model vw) md2 "svg" x).
  set (md2s := mkModel (<["svg" := x]> (attributes md2)) (events md2)).
  set (old := targets w2s (listening "change:svg" (events md))).
  assert (targets w2s (listening "change:svg" (events md2))
          = ((old ++ [h2]) ++ [h2])%list) as Htargets.
  { change (events md2)
      with ((events md ++ [subscription v]) ++ [subscription v])%list.
    rewrite !listening_app, !targets_app.
    by rewrite (targets_subscription w2s v _ h2 Ev2 eq_refl). }
  assert (∀ h, h ∈ old → h ∈ dom (document w)) as Hold_dom.
  { intros h (l & vw' & [_ Hl]%list_elem_of_filter & Ev' & Eh')%elem_of_targets.
    destruct (Hold l Hl) as (vw'' & Ev'' & _ & h' & Eh'' & Hin).
    assert (Some vw' = Some vw'') as [= <-]
      by (rewrite <-Ev', <-Ev''; reflexivity).
    rewrite Eh' in Eh''. by injection Eh'' as <-. }
  assert (h1 ∉ old) as Hh1old.
  { intros Hin%Hold_dom. by apply (is_fresh (dom (document w))). }
  assert (h2 ∉ old) as Hh2old.
  { intros Hin%Hold_dom. apply Hh2. rewrite Hd1. by apply elem_of_union_r. }
  assert (∀ h', h' ∈ ((old ++ [h2]) ++ [h2])%list →
                is_Some (document w2 !! h')) as Hdoc.
  { intros h' [[Hin|Hin]%elem_of_app|Hin]%elem_of_app.
    - apply elem_of_dom. rewrite Hd2, Hd1. apply Hold_dom in Hin.
      by apply elem_of_union_r, elem_of_union_r.
    - apply list_elem_of_singleton in Hin as ->. by rewrite Ec22.
    - apply list_elem_of_singleton in Hin as ->. by rewrite Ec22. }
  set (w3 := notified w2s md2s (listening "change:svg" (events md2))).
  assert (attributes md2s !! "svg" = Some x) as Ex
    by (unfold md2s; simpl; apply lookup_insert_eq).
  assert (document w3 =
          html_documents (Some x) ((old ++ [h2]) ++ [h2]) (document w2)) as Hd3.
  { change (document w3)
      with (html_documents (attributes md2s !! "svg")
              (targets w2s (listening "change:svg" (events md2))) (document w2)).
    by rewrite Ex, Htargets. }
  assert (trace w3 =
          (trace w2 ++ html_traces (Some x) ((old ++ [h2]) ++ [h2]) (document w2))%list)
    as Ht3.
  { change (trace w3)
      with (trace w2 ++ html_traces (attributes md2s !! "svg")
              (targets w2s (listening "change:svg" (events md2))) (document w2))%list.
    by rewrite Ex, Htargets. }
  exists w3, (html_traces (Some x) ((old ++ [h2]) ++ [h2]) (document w2)).
  split.
  { unfold update. erewrite bind_Ok by (by apply store_attribute_eq).
    unfold notify_change.
    apply (trigger_eq_listeners w2s (model vw) md2s).
    - unfold w2s, stored; simpl. apply lookup_insert_eq.
    - intros l Hl.
      change (l ∈ ((events md ++ [subscription v]) ++ [subscription v])%list)
        in Hl.
      apply elem_of_app in Hl as [[Hl|Hl]%elem_of_app|Hl].
      + destruct (Hold l Hl) as (vw' & Ev' & Em' & h & Eh' & _).
        exists vw'. split; [exact Ev'|]. split; [done|]. by exists h.
      + apply list_elem_of_singleton in Hl as ->.
        eexists. split; [exact Ev2|]. split; [done|]. by eexists.
      + apply list_elem_of_singleton in Hl as ->.
        eexists. split; [exact Ev2|]. split; [done|]. by eexists. }
  split; [exact Ht3|].
  split; [|split; [|split]].
  - rewrite replacements_html_traces by exact Hdoc.
    rewrite !filter_app, (filter_none _ old) by (intros h' Hin ->; done).
    by rewrite !filter_cons_True by done.
  - rewrite replacements_html_traces by exact Hdoc.
    rewrite !filter_app, (filter_none _ old) by (intros h' Hin ->; done).
    by rewrite !filter_cons_False by (intros E; by apply Hne).
  - rewrite Hd3, lookup_html_documents_Some, decide_False, Ec21; [done|].
    intros [[Hin|Hin]%elem_of_app|Hin]%elem_of_app; [done|..];
      apply list_elem_of_singleton in Hin; done.
  - rewrite Hd3, lookup_html_documents_Some, decide_True, Ec22; [done|].
    apply elem_of_app. right. by apply list_elem_of_singleton.
Qed.

Lemma second_render_witness :
  ∃ w2 h1 h2,
    (render 0 ;; render 0) w0 = Ok tt w2 ∧ h1 ≠ h2 ∧
    svg <$> views w2 !! 0 = Some (Some h2) ∧
    childNodes <$> document w2 !! 0 = Some ([] ++ [h1; h2])%list ∧
    subscriptions w2 0 0 = [subscription 0; subscription 0] ∧
    ∃ w3 tr,
      update 0 "svg" "<rect/>" w2 = Ok tt w3 ∧
      trace w3 = (trace w2 ++ tr)%list ∧
      replacements h2 tr = 2 ∧ replacements h1 tr = 0 ∧
      innerHTML <$> document w3 !! h1 = Some "<circle r='5'/>" ∧
      innerHTML <$> document w3 !! h2 = Some "<rect/>".
Proof.
  apply (second_render w0 0 (mkView 0 0 None)
           (mkModel {[ "svg" := "<circle r='5'/>" ]} [])
           (mkNode "div" ∅ [] "") "<circle r='5'/>" "<rect/>");
    [exact wf_w0 | reflexivity..].
Defined.
